(** * NER-For-CV-Extraction: a shallow embedding of the preprocessing,
      inference and training scripts, with the properties of their
      index arithmetic and control flow.

    Python integers are unbounded, so offsets are [Z].  A Python [str] is a
    sequence of Unicode code points and is indexed by code point, so a text
    whose characters are inspected is a [list N].  Exceptions are explicit:
    a computation returns a value or raises. *)

From stdpp Require Import base option list list_numbers strings pretty gmap.
From Stdlib Require Import ZArith Lia.

Local Open Scope Z_scope.

(** ** Python values that return or raise *)

Module Py.

Inductive result (E A : Type) : Type :=
| Returned (a : A)
| Raised (e : E).
Arguments Returned {E A} a.
Arguments Raised {E A} e.

Definition bind {E A B} (m : result E A) (k : A -> result E B) : result E B :=
  match m with
  | Returned a => k a
  | Raised e => Raised e
  end.

(** [len(s)] *)
Definition len {A} (s : list A) : Z := Z.of_nat (length s).

(** The code points of an ASCII literal. *)
Definition codepoints (s : string) : list N :=
  map Ascii.N_of_ascii (String.list_ascii_of_string s).

(** [range(start, stop)]: empty when [stop <= start]. *)
Definition range (start stop : Z) : list Z := seqZ start (stop - start).

End Py.

Notation "x <- m ;; k" := (Py.bind m (fun x => k))
  (at level 100, m at next level, right associativity, only parsing).

(** ** src/data_preprocessing.py *)

Module DataPreprocessing.
Import Py.

(** The only exception the offset arithmetic can raise. *)
Inductive exn := IndexError.

(** One annotation [[start, end, label]]. *)
Record entity := Entity { ent_start : Z; ent_end : Z; ent_label : string }.

(** One record [(text, {"entities": [...]})]. *)
Record example := Annotated { ex_text : list N; ex_entities : list entity }.

(** [re.compile(r'\s').match(c)] on a one-character [str]: the pattern is a
    [str] pattern, so [\s] is Unicode whitespace, the code points for which
    [str.isspace] holds. *)
Definition invalid_span_tokens (c : N) : bool :=
  ((9 <=? c) && (c <=? 13) || (28 <=? c) && (c <=? 32)
   || (c =? 133) || (c =? 160) || (c =? 5760)
   || (8192 <=? c) && (c <=? 8202)
   || (c =? 8232) || (c =? 8233) || (c =? 8239) || (c =? 8287)
   || (c =? 12288))%N.

(** [text[i]]: a negative index counts from the end; outside
    [-len(text) .. len(text)-1] the subscript raises IndexError. *)
Definition getitem (text : list N) (i : Z) : result exn N :=
  let j := if i <? 0 then i + len text else i in
  if (0 <=? j) && (j <? len text) then
    match text !! Z.to_nat j with
    | Some c => Returned c
    | None => Raised IndexError
    end
  else Raised IndexError.

(** [while valid_start < len(text) and invalid_span_tokens.match(text[valid_start]):
        valid_start += 1]
    [n] bounds the number of iterations left; the loop is run with
    [n = len(text) - valid_start], at 0 the guard is false. *)
Fixpoint advance_start (n : nat) (text : list N) (valid_start : Z) : result exn Z :=
  match n with
  | O => Returned valid_start
  | S n' =>
      if valid_start <? len text then
        c <- getitem text valid_start ;;
        if invalid_span_tokens c
        then advance_start n' text (valid_start + 1)
        else Returned valid_start
      else Returned valid_start
  end.

(** [while valid_end > valid_start and invalid_span_tokens.match(text[valid_end - 1]):
        valid_end -= 1]
    run with [n = valid_end - valid_start]. *)
Fixpoint retract_end (n : nat) (text : list N) (valid_start valid_end : Z) : result exn Z :=
  match n with
  | O => Returned valid_end
  | S n' =>
      if valid_start <? valid_end then
        c <- getitem text (valid_end - 1) ;;
        if invalid_span_tokens c
        then retract_end n' text valid_start (valid_end - 1)
        else Returned valid_end
      else Returned valid_end
  end.

Definition trim_start (text : list N) (start : Z) : result exn Z :=
  advance_start (Z.to_nat (len text - start)) text start.

Definition trim_end (text : list N) (valid_start end_ : Z) : result exn Z :=
  retract_end (Z.to_nat (end_ - valid_start)) text valid_start end_.

(** The loop [for start, end, label in entities], appending to
    [valid_entities]. *)
Fixpoint trim_entities (text : list N) (entities valid_entities : list entity)
  : result exn (list entity) :=
  match entities with
  | [] => Returned valid_entities
  | Entity start end_ label :: entities' =>
      valid_start <- trim_start text start ;;
      valid_end <- trim_end text valid_start end_ ;;
      if valid_start <? valid_end
      then trim_entities text entities'
             (valid_entities ++ [Entity valid_start valid_end label])
      else trim_entities text entities' valid_entities
  end.

(** The loop [for text, annotations in data], appending to [cleaned_data]. *)
Fixpoint trim_records (data cleaned_data : list example) : result exn (list example) :=
  match data with
  | [] => Returned cleaned_data
  | Annotated text entities :: data' =>
      valid_entities <- trim_entities text entities [] ;;
      trim_records data' (cleaned_data ++ [Annotated text valid_entities])
  end.

Definition trim_entity_spans (data : list example) : result exn (list example) :=
  trim_records data [].

(** A line written to the error log:
    [f"Invalid span: {start}-{end} in text: {text[:60]}...\n"]. *)
Inductive log_line := InvalidSpan (start end_ : Z) (text_prefix : list N).

(** [any(idx in entity_indices for idx in range(start, end))] *)
Definition any_taken (entity_indices : list Z) (start end_ : Z) : bool :=
  existsb (fun idx => bool_decide (idx ∈ entity_indices)) (range start end_).

Section ConvertToSpacy.
(** spaCy's side of the loop: the type of span objects and
    [doc.char_span(start, end, label=label, alignment_mode="strict")] on
    the document made from [text], which gives a span or [None]. *)
Context {Span : Type}.
Variable char_span : list N -> Z -> Z -> string -> option Span.

(** The variables of one record's loop.  [file] is the error log, which
    is opened once and shared by all records; [passed] records the
    entities that reached [doc.char_span], in order. *)
Record doc_state := DocState {
  ents : list Span;
  entity_indices : list Z;
  file : list log_line;
  passed : list entity
}.

(** The body of [for start, end, label in annot["entities"]]. *)
Definition visit (text : list N) (st : doc_state) (e : entity) : doc_state :=
  let 'Entity start end_ label := e in
  if any_taken (entity_indices st) start end_ then st
  else
    let entity_indices' := entity_indices st ++ range start end_ in
    match char_span text start end_ label with
    | Some span =>
        DocState (ents st ++ [span]) entity_indices' (file st) (passed st ++ [e])
    | None =>
        DocState (ents st) entity_indices'
                 (file st ++ [InvalidSpan start end_ (take 60 text)])
                 (passed st ++ [e])
    end.

(** One record: [ents = []], [entity_indices = []], then the loop. *)
Definition scan_entities (text : list N) (file0 : list log_line)
           (entities : list entity) : doc_state :=
  foldl (visit text) (DocState [] [] file0 []) entities.

(** What the outer loop hands over: per document its text and the list
    [ents] assigned to [doc.ents], in the order of the assignments (spaCy
    itself keeps the entities of a document in document order, whatever the
    order of that list); the error log; and per record the entities passed
    to span creation. *)
Record corpus := Corpus {
  db : list (list N * list Span);
  error_log : list log_line;
  span_requests : list (list entity)
}.

(** The body of [for text, annot in data]: the loop over the entities,
    then [doc.ents = ents] and [db.add(doc)], recorded as the text and the
    list [ents] as it is assigned. *)
Definition add_record (c : corpus) (r : example) : corpus :=
  let st := scan_entities (ex_text r) (error_log c) (ex_entities r) in
  Corpus (db c ++ [(ex_text r, ents st)]) (file st) (span_requests c ++ [passed st]).

Definition convert_to_spacy (data : list example) : corpus :=
  foldl add_record (Corpus [] [] []) data.

End ConvertToSpacy.

End DataPreprocessing.

(** ** Scripts: printing, calls to external libraries, exceptions, exit *)

Module Script.
Import Py.

(** Why a script stops early: an exception (an instance of [Exception]:
    what the libraries, subscripts and [input] raise), or [SystemExit]
    from [sys.exit], which [except Exception] does not catch. *)
Inductive halt (Exn : Type) : Type :=
| Exception (e : Exn)
| SystemExit (code : Z).
Arguments Exception {Exn} e.
Arguments SystemExit {Exn} code.

(** A run: the events it performed, in order, and how it ended. *)
Definition io (Ev Exn A : Type) : Type := list Ev * result (halt Exn) A.

Definition trace {Ev Exn A} (m : io Ev Exn A) : list Ev := fst m.
Definition outcome {Ev Exn A} (m : io Ev Exn A) : result (halt Exn) A := snd m.

Definition ret {Ev Exn A} (a : A) : io Ev Exn A := ([], Returned a).

Definition bind {Ev Exn A B} (m : io Ev Exn A) (k : A -> io Ev Exn B) : io Ev Exn B :=
  match m with
  | (t, Returned a) => let (t', r) := k a in (t ++ t', r)
  | (t, Raised h) => (t, Raised h)
  end.

(** An effect with no result, such as [print]. *)
Definition emit {Ev Exn} (ev : Ev) : io Ev Exn unit := ([ev], Returned tt).

(** A call to an external library: the event, and what the library
    answered, a value or an exception. *)
Definition call {Ev Exn A} (ev : Ev) (answer : result Exn A) : io Ev Exn A :=
  ([ev], match answer with
         | Returned a => Returned a
         | Raised e => Raised (Exception e)
         end).

(** A call to a library that may also end the interpreter itself: besides
    raising an exception it may call [sys.exit], as spaCy's training does
    when it rejects its configuration. *)
Definition invoke {Ev Exn A} (ev : Ev) (answer : result (halt Exn) A) : io Ev Exn A :=
  ([ev], answer).

(** An exception raised by the script's own expressions. *)
Definition lift {Ev Exn A} (r : result Exn A) : io Ev Exn A :=
  ([], match r with
       | Returned a => Returned a
       | Raised e => Raised (Exception e)
       end).

(** [sys.exit(code)] *)
Definition sys_exit {Ev Exn A} (code : Z) : io Ev Exn A := ([], Raised (SystemExit code)).

(** [try: body  except Exception as e: handler] *)
Definition try_except {Ev Exn A} (body : io Ev Exn A) (handler : Exn -> io Ev Exn A)
  : io Ev Exn A :=
  match body with
  | (t, Raised (Exception e)) => let (t', r) := handler e in (t ++ t', r)
  | other => other
  end.

(** [try: body  finally: cleanup], also the exit of a [with] block whose
    context manager does not swallow exceptions. *)
Definition try_finally {Ev Exn A} (body : io Ev Exn A) (cleanup : io Ev Exn unit)
  : io Ev Exn A :=
  match body, cleanup with
  | (t, r), (t', Returned _) => (t ++ t', r)
  | (t, _), (t', Raised h) => (t ++ t', Raised h)
  end.

End Script.

Notation "x <~ m ;; k" := (Script.bind m (fun x => k))
  (at level 100, m at next level, right associativity, only parsing).
Notation "m ;;; k" := (Script.bind m (fun _ => k))
  (at level 100, right associativity, only parsing).

(** ** Python values of the scripts *)

Module PyValue.
Import Py.
Local Open Scope string_scope.

(** Python values as they come out of [json] and go into it. *)
#[warnings="-register-all"]
Inductive json : Type :=
| JNone
| JBool (b : bool)
| JInt (z : Z)
| JFloat (repr : string)
| JStr (s : string)
| JList (items : list json)
| JDict (items : list (string * json)).

(** What the scripts subscript with: a [str] key or an [int] index. *)
Inductive subscript : Type :=
| Key (k : string)
| Index (i : Z).

(** The exceptions of a subscript, and those of the libraries. *)
Inductive exn : Type :=
| KeyError (key : subscript)
| IndexError (container : json)
| TypeError (container : json) (key : subscript)
| LibraryError (message : string).

(** The newline character. *)
Definition nl : string := String (Ascii.ascii_of_nat 10) EmptyString.

(** [d.get(k)] on the items of a dict (its keys are distinct). *)
Fixpoint dict_get (k : string) (items : list (string * json)) : option json :=
  match items with
  | [] => None
  | (k', v) :: items' => if String.eqb k k' then Some v else dict_get k items'
  end.

(** [d[k] = v]: an existing key keeps its position. *)
Fixpoint dict_set (k : string) (v : json) (items : list (string * json))
  : list (string * json) :=
  match items with
  | [] => [(k, v)]
  | (k', v') :: items' =>
      if String.eqb k k' then (k, v) :: items' else (k', v') :: dict_set k v items'
  end.

(** A byte that continues a UTF-8 character. *)
Definition continuation (a : Ascii.ascii) : bool :=
  let n := Ascii.nat_of_ascii a in (128 <=? n)%nat && (n <? 192)%nat.

(** [s] begins inside a UTF-8 character. *)
Definition continues (s : string) : bool :=
  match s with
  | String b _ => continuation b
  | EmptyString => false
  end.

(** The characters of a [str] held as UTF-8 bytes. *)
Fixpoint characters (s : string) : list string :=
  match s with
  | EmptyString => []
  | String a rest =>
      match characters rest with
      | c :: cs =>
          if continues rest then String a c :: cs else String a EmptyString :: c :: cs
      | [] => [String a EmptyString]
      end
  end.

(** [xs[i]] on a sequence, with Python's negative indices. *)
Definition seq_get {A} (xs : list A) (i : Z) : option A :=
  let j := (if i <? 0 then i + len xs else i)%Z in
  if ((0 <=? j) && (j <? len xs))%Z then xs !! Z.to_nat j else None.

(** The subscript [v[key]].  A dict that came out of [json] has [str]
    keys only, so an [int] is never among them. *)
Definition getitem (v : json) (key : subscript) : result exn json :=
  match v, key with
  | JDict items, Key k =>
      match dict_get k items with
      | Some x => Returned x
      | None => Raised (KeyError key)
      end
  | JDict _, Index _ => Raised (KeyError key)
  | JList items, Index i =>
      match seq_get items i with
      | Some x => Returned x
      | None => Raised (IndexError v)
      end
  | JStr s, Index i =>
      match seq_get (characters s) i with
      | Some c => Returned (JStr c)
      | None => Raised (IndexError v)
      end
  | _, _ => Raised (TypeError v key)
  end.

End PyValue.

(** ** src/inference.py *)

Module Inference.
Import Py PyValue Script.
Local Open Scope string_scope.

(** An entity of [doc.ents]: the attributes the script reads. *)
Record Ent := { text : string; label_ : string; start_char : Z; end_char : Z }.

(** A loaded pipeline [nlp]: calling it on a text gives [doc.ents] or
    raises. *)
Definition pipeline : Type := string -> result exn (list Ent).

(** The arguments of [requests.post]. *)
Record request := Request {
  url : string;
  headers : list (string * string);
  data : string;
  timeout : Z
}.

(** A response: what [raise_for_status()] and [json()] do on it. *)
Record response := Response {
  raise_for_status : result exn unit;
  response_json : result exn json
}.

Inductive event : Type :=
| Print (line : string)
| FitzOpen (pdf_path : string)
| SpacyLoad (model_path : string)
| Nlp (text : string)
| OpenWrite (path : string)
| JsonDump (value : json)
| Close
| DataFrame (rows : json)
| Input (prompt : string)
| Post (req : request).

(** The libraries and the interpreter, as the script sees them. *)
Record world := World {
  (** [str(e)] of an exception *)
  exc_str : exn -> string;
  (** [str(v)] of a value that is not a string *)
  py_str : json -> string;
  (** [fitz.open(path)]: [page.get_text()] of every page *)
  fitz_open : string -> result exn (list string);
  spacy_load : string -> result exn pipeline;
  (** [open(path, "w", encoding="utf-8")] *)
  open_write : string -> result exn unit;
  (** [json.dump(value, f, indent=2, ensure_ascii=False)] *)
  json_dump : json -> result exn unit;
  (** [str(pd.DataFrame(rows).head(15))] *)
  df_head : json -> string;
  input : string -> result exn string;
  (** [json.dumps(value, indent=2, ensure_ascii=False)]: the text, or the
      exception of a value that cannot be written (an integer with too many
      digits, for one) *)
  json_dumps_indent : json -> result exn string;
  (** [json.dumps(payload)] of a payload made of strings *)
  json_dumps : json -> string;
  requests_post : request -> result exn response;
  (** leaving [with open(path, "w") as f]: the file is flushed and closed,
      which raises when the data cannot be written *)
  file_close : string -> result exn unit
}.

(** The module's configuration constants. *)
Record config := Config {
  MODEL_PATH : string;
  PDF_PATH : string;
  OUTPUT_JSON : string;
  USE_LLM_ANALYSIS : bool;
  OPENROUTER_API_KEY : option string;
  MODEL_NAME : string
}.

(** The constants as the file sets them; the key is [os.getenv]'s answer. *)
Definition default_config (api_key : option string) : config :=
  Config "./output/model-last" "./examples/sample_cv.pdf" "./examples/sample_output.json"
         true api_key "google/gemini-2.5-flash-preview-05-20".

Definition io := Script.io event exn.

(** [text.split("\n")] *)
Fixpoint split_newline (s : string) : list string :=
  match s with
  | EmptyString => [EmptyString]
  | String c rest =>
      if Ascii.eqb c (Ascii.ascii_of_nat 10) then EmptyString :: split_newline rest
      else match split_newline rest with
           | piece :: pieces => String c piece :: pieces
           | [] => [String c EmptyString]
           end
  end.

(** [" ".join(pieces)] *)
Fixpoint join_space (pieces : list string) : string :=
  match pieces with
  | [] => EmptyString
  | [piece] => piece
  | piece :: pieces' => piece ++ " " ++ join_space pieces'
  end.

Definition extract_text_from_pdf (w : world) (pdf_path : string) : io string :=
  emit (Print ("📄 Extracting text from: " ++ pdf_path)) ;;;
  doc <~ call (FitzOpen pdf_path) (fitz_open w pdf_path) ;;
  let text := foldl (fun text page => text ++ page) EmptyString doc in
  let text := join_space (split_newline text) in
  ret text.

(** [{"Text": ent.text, "Label": ent.label_}] *)
Definition entity_row (ent : Ent) : json :=
  JDict [("Text", JStr (text ent)); ("Label", JStr (label_ ent))].

(** [[ent.text, {"entities": [[ent.start_char, ent.end_char, ent.label_]]}]] *)
Definition ner_record (ent : Ent) : json :=
  JList [JStr (text ent);
         JDict [("entities",
                 JList [JList [JInt (start_char ent); JInt (end_char ent);
                               JStr (label_ ent)]])]].

Definition perform_ner_inference (w : world) (model_path text : string)
  : io (list json * list json) :=
  emit (Print "🧠 Loading NER model...") ;;;
  nlp <~ call (SpacyLoad model_path) (spacy_load w model_path) ;;
  doc_ents <~ call (Nlp text) (nlp text) ;;
  emit (Print ("🔍 Detected " ++ pretty (length doc_ents) ++ " entities." ++ nl)) ;;;
  let entities := entity_row <$> doc_ents in
  let ner_json := ner_record <$> doc_ents in
  ret (entities, ner_json).

Definition system_prompt : string :=
  nl ++ "Peran: Anda adalah seorang Asisten AI Rekruter senior yang kritis."
  ++ nl ++ "Tugas: Evaluasi kesesuaian kandidat terhadap posisi kerja berdasarkan JSON hasil NER."
  ++ nl ++ "Keluarkan hasil dalam salah satu kategori: COCOK, DAPAT DIPERTIMBANGKAN, atau TIDAK COCOK."
  ++ nl ++ "Gunakan format seperti:"
  ++ nl ++ "Kandidat [Nama] dinilai COCOK/DAPAT DIPERTIMBANGKAN/TIDAK COCOK untuk posisi {posisi}."
  ++ nl ++ "    ".

Definition error_prefix : string := "❌ Error during recruiter summary generation: ".

(** The request the function sends, once [ner_results] is written out as
    the text [dumped]. *)
Definition summary_request (w : world) (cfg : config) (job_position dumped : string)
  : request :=
  let user_prompt :=
    nl ++ "Posisi yang dilamar: " ++ job_position
    ++ nl ++ "JSON Entitas:"
    ++ nl ++ dumped ++ nl in
  let headers :=
    [("Authorization",
      "Bearer " ++ match OPENROUTER_API_KEY cfg with Some key => key | None => "None" end);
     ("Content-Type", "application/json")] in
  let payload :=
    JDict [("model", JStr (MODEL_NAME cfg));
           ("messages",
            JList [JDict [("role", JStr "system"); ("content", JStr system_prompt)];
                   JDict [("role", JStr "user"); ("content", JStr user_prompt)]])] in
  Request "https://openrouter.ai/api/v1/chat/completions" headers (json_dumps w payload) 60.

(** The prompts, the headers and the payload are built before the [try]:
    an exception of [json.dumps(ner_results, ...)] leaves the function. *)
Definition get_recruiter_summary (w : world) (cfg : config) (job_position : string)
           (ner_results : json) : io json :=
  dumped <~ lift (json_dumps_indent w ner_results) ;;
  let req := summary_request w cfg job_position dumped in
  try_except
    (emit (Print "🧩 Calling OpenRouter API for recruiter analysis...") ;;;
     response <~ call (Post req) (requests_post w req) ;;
     lift (raise_for_status response) ;;;
     result <~ lift (response_json response) ;;
     choices <~ lift (getitem result (Key "choices")) ;;
     choice <~ lift (getitem choices (Index 0)) ;;
     message <~ lift (getitem choice (Key "message")) ;;
     lift (getitem message (Key "content")))
    (fun e => ret (JStr (error_prefix ++ exc_str w e))).

(** What [print(v)] writes. *)
Definition printed (w : world) (v : json) : string :=
  match v with
  | JStr s => s
  | _ => py_str w v
  end.

Definition main (w : world) (cfg : config) : io unit :=
  text <~ extract_text_from_pdf w (PDF_PATH cfg) ;;
  found <~ perform_ner_inference w (MODEL_PATH cfg) text ;;
  let '(entities, ner_json) := found in
  call (OpenWrite (OUTPUT_JSON cfg)) (open_write w (OUTPUT_JSON cfg)) ;;;
  try_finally (call (JsonDump (JList ner_json)) (json_dump w (JList ner_json)))
              (call Close (file_close w (OUTPUT_JSON cfg))) ;;;
  emit (Print ("✅ Saved extracted entities to " ++ OUTPUT_JSON cfg)) ;;;
  emit (DataFrame (JList entities)) ;;;
  emit (Print (nl ++ "=== Extracted Entities ===")) ;;;
  emit (Print (df_head w (JList entities))) ;;;
  if USE_LLM_ANALYSIS cfg then
    answer <~ call (Input (nl ++ "Masukkan posisi yang dilamar: "))
                   (input w (nl ++ "Masukkan posisi yang dilamar: ")) ;;
    let job_position :=
      match answer with EmptyString => "Staff Divisi Sponsor" | _ => answer end in
    summary <~ get_recruiter_summary w cfg job_position (JList ner_json) ;;
    emit (Print (nl ++ "--- HASIL ANALISIS KESESUAIAN KANDIDAT ---")) ;;;
    emit (Print (printed w summary))
  else ret tt.

End Inference.

(** ** src/ner_training.py: one run of the sweep *)

Module NerTraining.
Import Py PyValue Script.
Local Open Scope string_scope.

Definition PROJECT_NAME : string := "NER-CV-Extraction".
Definition CONFIG_PATH : string := "./configs/spacy_config.cfg".
Definition OUTPUT_DIR : string := "./output".
Definition USE_GPU : bool := true.

Inductive event : Type :=
| Print (line : string)
| WandbInit (project : string)
| RunExit
| SpacyTrain (config_path output_dir : string) (overrides : list (string * json))
             (use_gpu : Z).

Record world := World {
  exc_str : exn -> string;
  py_str : json -> string;
  (** [wandb.init(project=...)]: the run's [project] *)
  wandb_init : string -> result exn string;
  (** the items of [wandb.config] *)
  wandb_config : list (string * json);
  (** [spacy_train(config_path, output_path, overrides=..., use_gpu=...)]:
      it returns, raises, or ends by [sys.exit] *)
  spacy_train : string -> string -> list (string * json) -> Z -> result (halt exn) unit
}.

Definition io := Script.io event exn.

(** [f"{k}: {v}"] *)
Definition item_line (w : world) (kv : string * json) : string :=
  fst kv ++ ": " ++ match snd kv with JStr s => s | v => py_str w v end.

(** [for k, v in overrides.items(): print(f"{k}: {v}")] *)
Fixpoint print_items (w : world) (items : list (string * json)) : io unit :=
  match items with
  | [] => ret tt
  | kv :: items' => emit (Print (item_line w kv)) ;;; print_items w items'
  end.

Definition train_sweep (w : world) : io unit :=
  emit (Print "🚀 Starting W&B sweep run...") ;;;
  run_project <~ call (WandbInit PROJECT_NAME) (wandb_init w PROJECT_NAME) ;;
  try_finally
    (let overrides := wandb_config w in
     let overrides := dict_set "training.logger.project_name" (JStr run_project) overrides in
     emit (Print "--- Active Sweep Parameters ---") ;;;
     print_items w overrides ;;;
     try_finally
       (try_except
          (invoke (SpacyTrain CONFIG_PATH OUTPUT_DIR overrides (if USE_GPU then 0 else -1))
                  (spacy_train w CONFIG_PATH OUTPUT_DIR overrides
                               (if USE_GPU then 0 else -1)))
          (fun e => emit (Print ("❌ Training failed: " ++ exc_str w e))))
       (emit (Print "--- Run finished ---")))
    (emit RunExit).

End NerTraining.

(** ** configs/spacy_train_sweep.py *)

Module SpacyTrainSweep.
Import Py PyValue Script.
Local Open Scope string_scope.

Inductive event : Type :=
| Print (line : string)
| WandbInit
| SpacyCliTrain (config_path : string) (overrides : list (string * json))
| WandbFinish (exit_code : Z).

Record world := World {
  exc_str : exn -> string;
  wandb_init : result exn unit;
  (** the items of [wandb.config] *)
  wandb_config : list (string * json);
  spacy_cli_train : string -> list (string * json) -> result exn unit;
  wandb_finish : Z -> result exn unit
}.

Definition io := Script.io event exn.

(** [wandb.config[key]] *)
Definition config_item (w : world) (key : string) : io json :=
  lift (getitem (JDict (wandb_config w)) (Key key)).

Definition train_with_wandb_config (w : world) : io unit :=
  call WandbInit (wandb_init w) ;;;
  let config_path := "config.cfg" in
  dropout <~ config_item w "training.dropout" ;;
  learn_rate <~ config_item w "training.optimizer.learn_rate" ;;
  size <~ config_item w "training.batcher.size" ;;
  hidden_width <~ config_item w "components.ner.model.hidden_width" ;;
  let overrides :=
    [("training.dropout", dropout);
     ("training.optimizer.learn_rate", learn_rate);
     ("training.batcher.size", size);
     ("components.ner.model.hidden_width", hidden_width)] in
  try_except
    (call (SpacyCliTrain config_path overrides) (spacy_cli_train w config_path overrides))
    (fun e =>
       emit (Print ("An error occurred during training: " ++ exc_str w e)) ;;;
       call (WandbFinish 1) (wandb_finish w 1) ;;;
       sys_exit 1).

End SpacyTrainSweep.

(** ** src/ner_training.py: training without the sweep *)

Module TrainDirect.
Import Py PyValue Script.
Local Open Scope string_scope.

Definition TRAIN_PATH : string := "./corpus/train_data.spacy".
Definition DEV_PATH : string := "./corpus/test_data.spacy".

Inductive event : Type :=
| Print (line : string)
| SubprocessRun (cmd : list string).

(** [subprocess.run(cmd, check=True)]: returns, or raises (the command
    cannot be started, or it exits with a status that is not 0). *)
Record world := World { subprocess_run : list string -> result exn unit }.

Definition io := Script.io event exn.

(** The command line of the training. *)
Definition command : list string :=
  let cmd := ["python"; "-m"; "spacy"; "train";
              NerTraining.CONFIG_PATH;
              "--output"; NerTraining.OUTPUT_DIR;
              "--paths.train"; TRAIN_PATH;
              "--paths.dev"; DEV_PATH] in
  if NerTraining.USE_GPU then (cmd ++ ["--gpu-id"; "0"])%list else cmd.

Definition train_direct (w : world) : io unit :=
  emit (Print "🚀 Starting direct SpaCy training...") ;;;
  call (SubprocessRun command) (subprocess_run w command) ;;;
  emit (Print (nl ++ "✅ Training complete. Model saved in:" ++ " " ++ NerTraining.OUTPUT_DIR)).

End TrainDirect.

(** ** src/data_preprocessing.py: the script around the two loops *)

Module PreprocessingMain.
Import Py Script DataPreprocessing.
Local Open Scope string_scope.

(** What stops the script: IndexError out of trim_entity_spans, or an
    exception of a library (a missing file, invalid JSON, a split that
    cannot be made, a disk that cannot be written). *)
Inductive failure : Type :=
| OffsetError (e : exn)
| LibraryFailure (message : string).

Definition input_path : string := "./data/final_fix_transformed.json".
Definition output_dir : string := "./corpus".

(** [os.path.join(output_dir, name)], with the POSIX separator. *)
Definition path_join (dir name : string) : string := dir ++ "/" ++ name.

(** The default of [convert_to_spacy]'s parameter [error_log]. *)
Definition default_error_log : string := "error.txt".

Section Script.
Context {Span : Type}.

Inductive event : Type :=
| Print (line : string)
| Makedirs (path : string)
| LoadJson (path : string)
| TrainTestSplit (data : list example)
| SpacyBlank
| OpenWrite (path : string)
| Write (path : string) (line : log_line)
| ToDisk (path : string) (docs : list (list N * list Span))
| Close (path : string).

Record world := World {
  (** [os.path.exists(path)] *)
  path_exists : string -> bool;
  makedirs : string -> result failure unit;
  (** [open(path, "r", encoding="utf-8")] and [json.load] *)
  load_json : string -> result failure (list example);
  (** [train_test_split(data, test_size=0.2, random_state=42)] *)
  train_test_split : list example -> result failure (list example * list example);
  char_span : list N -> Z -> Z -> string -> option Span;
  (** [open(path, "w")] *)
  open_write : string -> result failure unit;
  (** [db.to_disk(path)] *)
  to_disk : string -> list (list N * list Span) -> result failure unit
}.

Definition io := Script.io event failure.

(** The [file.write] calls of the loops, in order. *)
Definition write_lines (path : string) (lines : list log_line) : io unit :=
  (Write path <$> lines, Returned tt).

(** convert_to_spacy with its files: the error log is opened for writing,
    the loops run, the DocBin is written, the log is closed. *)
Definition convert_to_spacy_io (w : world) (data : list example)
           (output_path error_log_path : string) : io unit :=
  emit SpacyBlank ;;;
  call (OpenWrite error_log_path) (open_write w error_log_path) ;;;
  let c := convert_to_spacy (char_span w) data in
  write_lines error_log_path (error_log c) ;;;
  call (ToDisk output_path (db c)) (to_disk w output_path (db c)) ;;;
  emit (Close error_log_path) ;;;
  emit (Print ("✅ Saved SpaCy DocBin to: " ++ output_path)).

Definition main (w : world) : io unit :=
  (if path_exists w output_dir then ret tt
   else call (Makedirs output_dir) (makedirs w output_dir)) ;;;
  emit (Print "📥 Loading dataset...") ;;;
  raw_data <~ call (LoadJson input_path) (load_json w input_path) ;;
  emit (Print "🧹 Cleaning entity spans...") ;;;
  cleaned_data <~ lift (match trim_entity_spans raw_data with
                        | Returned cleaned => Returned cleaned
                        | Raised e => Raised (OffsetError e)
                        end) ;;
  emit (Print "✂️ Splitting dataset...") ;;;
  parts <~ call (TrainTestSplit cleaned_data) (train_test_split w cleaned_data) ;;
  let '(train, test) := parts in
  emit (Print "💾 Converting to SpaCy DocBin format...") ;;;
  convert_to_spacy_io w train (path_join output_dir "train_data.spacy") default_error_log ;;;
  convert_to_spacy_io w test (path_join output_dir "test_data.spacy") default_error_log ;;;
  emit (Print (String (Ascii.ascii_of_nat 10) "✅ Data preprocessing completed successfully!")).



(** An event that creates or changes a file. *)
Definition writes_file (ev : event) : bool :=
  match ev with
  | OpenWrite _ | Write _ _ | ToDisk _ _ => true
  | _ => false
  end.

(** An event of [convert_to_spacy]. *)
Definition of_conversion (ev : event) : bool :=
  match ev with
  | SpacyBlank | OpenWrite _ | Write _ _ | ToDisk _ _ | Close _ => true
  | _ => false
  end.

Definition train_path : string := path_join output_dir "train_data.spacy".
Definition test_path : string := path_join output_dir "test_data.spacy".

(** The output directory is there once the script has checked for it:
    it existed, or [os.makedirs] made it. *)
Definition directory_ready (w : world) : Prop :=
  path_exists w output_dir = false -> makedirs w output_dir = Returned tt.

End Script.

End PreprocessingMain.

(** ** What trimming a span means *)

Module TrimSpec.
Import Py DataPreprocessing.

(** [text[i]] is a whitespace character, [0 <= i < len(text)]. *)
Definition ws_at (text : list N) (i : Z) : Prop :=
  0 <= i /\ exists c, text !! Z.to_nat i = Some c /\ invalid_span_tokens c = true.

(** [text[i]] is a character that is not whitespace. *)
Definition nonws_at (text : list N) (i : Z) : Prop :=
  0 <= i /\ exists c, text !! Z.to_nat i = Some c /\ invalid_span_tokens c = false.

(** The input offsets the loops can index without raising. *)
Definition offsets_in_range (text : list N) (e : entity) : Prop :=
  0 <= ent_start e /\ ent_end e <= len text.

(** [0 <= start <= end <= len(text)] *)
Definition span_ok (text : list N) (e : entity) : Prop :=
  0 <= ent_start e <= ent_end e /\ ent_end e <= len text.

Definition data_in_range (data : list example) : Prop :=
  Forall (fun r => Forall (offsets_in_range (ex_text r)) (ex_entities r)) data.

Definition data_ok (data : list example) : Prop :=
  Forall (fun r => Forall (span_ok (ex_text r)) (ex_entities r)) data.

(** [s'] is [start] advanced past every leading whitespace character. *)
Definition leading_trimmed (text : list N) (start s' : Z) : Prop :=
  start <= s'
  /\ (forall i, start <= i < s' -> ws_at text i)
  /\ (s' < len text -> nonws_at text s').

(** [e'] is [end_] retracted past every trailing whitespace character,
    never below [s']. *)
Definition trailing_trimmed (text : list N) (s' end_ e' : Z) : Prop :=
  e' <= end_ /\ Z.min s' end_ <= e'
  /\ (forall i, e' <= i < end_ -> ws_at text i)
  /\ (s' < e' -> nonws_at text (e' - 1)).

(** The span [e] becomes [o]: the trimmed span when it is not empty,
    nothing otherwise. *)
Definition trimmed_entity (text : list N) (e : entity) (o : option entity) : Prop :=
  exists s' e',
    leading_trimmed text (ent_start e) s'
    /\ trailing_trimmed text s' (ent_end e) e'
    /\ o = if s' <? e' then Some (Entity s' e' (ent_label e)) else None.

(** A span inside the text that begins and ends with a character that is
    not whitespace. *)
Definition clean (text : list N) (e : entity) : Prop :=
  0 <= ent_start e < ent_end e /\ ent_end e <= len text
  /\ nonws_at text (ent_start e) /\ nonws_at text (ent_end e - 1).

Definition trimmed_example (r r' : example) : Prop :=
  ex_text r' = ex_text r
  /\ (exists os, Forall2 (trimmed_entity (ex_text r)) (ex_entities r) os
                /\ ex_entities r' = omap id os)
  /\ Forall (clean (ex_text r)) (ex_entities r').

(** [text[i]], read as the loops read it (a negative [i] counts from the
    end of the text), is a whitespace character. *)
Definition reads_ws (text : list N) (i : Z) : Prop :=
  exists c, getitem text i = Returned c /\ invalid_span_tokens c = true.

Definition reads_nonws (text : list N) (i : Z) : Prop :=
  exists c, getitem text i = Returned c /\ invalid_span_tokens c = false.

(** What becomes of an entity with any offsets when the loops return: the
    start is only advanced, past characters read as whitespace, the end is
    only retracted, past characters read as whitespace and not below the
    new start; the entity keeps its label, and it is dropped only when the
    span that is left is empty. *)
Definition reduced_entity (text : list N) (e : entity) (o : option entity) : Prop :=
  exists s' e',
    (ent_start e <= s'
     /\ (forall i, ent_start e <= i < s' -> reads_ws text i)
     /\ (s' < len text -> reads_nonws text s'))
    /\ (e' <= ent_end e /\ Z.min s' (ent_end e) <= e'
        /\ (forall i, e' <= i < ent_end e -> reads_ws text i)
        /\ (s' < e' -> reads_nonws text (e' - 1)))
    /\ o = if s' <? e' then Some (Entity s' e' (ent_label e)) else None.

(** The record [r'] is [r] with its entities reduced, one by one and in
    order: the text is the same and nothing but the outcomes of the input
    entities is in [r']. *)
Definition offsets_only (r r' : example) : Prop :=
  ex_text r' = ex_text r
  /\ exists os, Forall2 (reduced_entity (ex_text r)) (ex_entities r) os
                /\ ex_entities r' = omap id os.

(** [new] is a selection of [entities], in order, with the labels kept. *)
Definition selection_of (entities new : list entity) : Prop :=
  exists sel, sublist sel entities
              /\ Forall2 (fun e e' => ent_label e' = ent_label e) sel new.

Definition framed_example (r r' : example) : Prop :=
  ex_text r' = ex_text r /\ selection_of (ex_entities r) (ex_entities r').

(** The output spans lie inside the text and are not empty. *)
Definition spans_valid (out : list example) : Prop :=
  Forall (fun r => Forall (fun e => 0 <= ent_start e < ent_end e
                                    /\ ent_end e <= len (ex_text r))
                          (ex_entities r)) out.

(** The function returns, with valid spans. *)
Definition validates (data : list example) : Prop :=
  exists out, trim_entity_spans data = Returned out /\ spans_valid out.

End TrimSpec.

(** ** What the overlap filter guarantees *)

Module ConvertSpec.
Import Py DataPreprocessing.

(** [idx] lies in the character range [[start, end)] of [e]. *)
Definition covers (e : entity) (idx : Z) : Prop :=
  ent_start e <= idx < ent_end e.

(** The character ranges of [e1] and [e2] share at least one index. *)
Definition shares_index (e1 e2 : entity) : Prop :=
  exists idx, covers e1 idx /\ covers e2 idx.

(** The ranges of the entities of [l] are pairwise disjoint. *)
Definition pairwise_disjoint (l : list entity) : Prop :=
  forall (i j : nat) (e1 e2 : entity),
    (i < j)%nat -> l !! i = Some e1 -> l !! j = Some e2 -> ~ shares_index e1 e2.

(** [entity_indices] holds exactly the indices of the entities passed on
    so far, and those entities are pairwise disjoint. *)
Definition filter_inv {Span : Type} (st : @doc_state Span) : Prop :=
  (forall idx, idx ∈ entity_indices st <-> exists e0, e0 ∈ passed st /\ covers e0 idx)
  /\ pairwise_disjoint (passed st).

End ConvertSpec.

(** ** The steps of the inference script *)

Module InferenceSpec.
Import Py PyValue Script Inference.
Local Open Scope string_scope.

(** The body of the [try] block after the request is sent: the status
    check, the parsing and the four subscripts. *)
Definition read_content (response : response) : result exn json :=
  _ <- raise_for_status response ;;
  result <- response_json response ;;
  choices <- getitem result (Key "choices") ;;
  choice <- getitem choices (Index 0) ;;
  message <- getitem choice (Key "message") ;;
  getitem message (Key "content").

(** What the [try] block computes: the content, or the exception of the
    request, of the status check, of the parsing or of a subscript. *)
Definition fetch_content (w : world) (req : request) : result exn json :=
  response <- requests_post w req ;;
  read_content response.

(** The calls to the libraries in a trace, without the [print]s. *)
Definition is_call (ev : event) : bool :=
  match ev with
  | Print _ => false
  | _ => true
  end.

Definition calls (t : list event) : list event := List.filter is_call t.

(** [" ".join(text.split("\n"))] of the pages' concatenated text. *)
Definition document_text (pages : list string) : string :=
  join_space (split_newline (foldl (fun text page => text ++ page) EmptyString pages)).

(** [input(...) or "Staff Divisi Sponsor"] *)
Definition position_of (answer : string) : string :=
  match answer with EmptyString => "Staff Divisi Sponsor" | _ => answer end.

Definition prompt : string := nl ++ "Masukkan posisi yang dilamar: ".

End InferenceSpec.

(** ** The runs of the training scripts *)

Module TrainingSpec.
Import Py PyValue Script.
Local Open Scope string_scope.

(** The overrides of a sweep run. *)
Definition sweep_overrides (w : NerTraining.world) (project : string)
  : list (string * json) :=
  dict_set "training.logger.project_name" (JStr project) (NerTraining.wandb_config w).

(** The overrides read from the sweep's configuration. *)
Definition script_overrides (dropout learn_rate size hidden_width : json)
  : list (string * json) :=
  [("training.dropout", dropout);
   ("training.optimizer.learn_rate", learn_rate);
   ("training.batcher.size", size);
   ("components.ner.model.hidden_width", hidden_width)].


End TrainingSpec.

(** ** Sample data and sample worlds *)

Module Samples.
Import Py PyValue Script DataPreprocessing Inference.
Local Open Scope string_scope.

Definition sample : list example :=
  [ Annotated (codepoints " ab  c ") [Entity 0 4 "NAME"; Entity 3 5 "GAP"; Entity 4 7 "SKILL"];
    Annotated (codepoints "x") [] ].

Definition sample_in_range : list example :=
  [Annotated (codepoints "a b ") [Entity 1 4 "SKILL"; Entity 9 2 "NAME"; Entity 3 4 "GAP"]].

Definition no_spans : list N -> Z -> Z -> string -> option unit := fun _ _ _ _ => None.

Definition all_spans : list N -> Z -> Z -> string -> option (Z * Z) :=
  fun _ start end_ _ => Some (start, end_).

(** A world in which every library call succeeds: a one-page PDF, a
    pipeline that finds one entity, a console answer and a response whose
    JSON is [parsed]. *)
Definition quiet_world (answer : string) (parsed : json) : world :=
  World (fun _ => "error") (fun _ => "None")
        (fun _ => Returned ["John knows" ++ nl ++ "Python"])
        (fun _ => Returned (fun _ => Returned [Build_Ent "Python" "SKILL" 11 17]))
        (fun _ => Returned tt) (fun _ => Returned tt)
        (fun _ => "rows") (fun _ => Returned answer)
        (fun _ => Returned "[...]") (fun _ => "{...}")
        (fun _ => Returned (Response (Returned tt) (Returned parsed)))
        (fun _ => Returned tt).

Definition completion (content : json) : json :=
  JDict [("choices", JList [JDict [("message", JDict [("role", JStr "assistant");
                                                       ("content", content)])]])].

(** A sweep run whose training raises. *)
Definition failing_sweep : NerTraining.world :=
  NerTraining.World
    (fun e => match e with LibraryError message => message | _ => "error" end)
    (fun _ => "0.1")
    (fun project => Returned project)
    [("training.dropout", JFloat "0.1")]
    (fun _ _ _ _ => Raised (Exception (LibraryError "CUDA out of memory"))).

(** A sweep run whose training rejects its configuration: spaCy prints
    its own message and calls [sys.exit(1)]. *)
Definition rejected_sweep : NerTraining.world :=
  NerTraining.World
    (fun e => match e with LibraryError message => message | _ => "error" end)
    (fun _ => "0.1")
    (fun project => Returned project)
    [("training.dropout", JFloat "0.1")]
    (fun _ _ _ _ => Raised (SystemExit 1)).


(** A sweep trial of the stand-alone script whose training raises. *)
Definition failing_trial : SpacyTrainSweep.world :=
  SpacyTrainSweep.World
    (fun e => match e with LibraryError message => message | _ => "error" end)
    (Returned tt)
    [("training.dropout", JFloat "0.1");
     ("training.optimizer.learn_rate", JFloat "0.001");
     ("training.batcher.size", JInt 128);
     ("components.ner.model.hidden_width", JInt 64)]
    (fun _ _ => Raised (LibraryError "CUDA out of memory"))
    (fun _ => Returned tt).

End Samples.

(** ** Further vocabulary for the preprocessing loops *)

Module PreprocessingSpec.
Import Py DataPreprocessing TrimSpec ConvertSpec.

(** A span the loops cannot index: its start lies before [-len(text)], or
    it is not empty and its end lies beyond [len(text)]. *)
Definition overruns (text : list N) (e : entity) : Prop :=
  ent_start e < - len text
  \/ (0 <= ent_start e < ent_end e /\ len text < ent_end e).

(** The span of [e] holds a character that is not whitespace. *)
Definition has_visible (text : list N) (e : entity) : Prop :=
  exists i, ent_start e <= i < ent_end e /\ nonws_at text i.

(** Every span of the data is clean. *)
Definition all_clean (data : list example) : Prop :=
  Forall (fun r => Forall (clean (ex_text r)) (ex_entities r)) data.

(** What spaCy is asked for the entity [e] of a document. *)
Definition span_of {Span : Type} (char_span : list N -> Z -> Z -> string -> option Span)
           (text : list N) (e : entity) : option Span :=
  char_span text (ent_start e) (ent_end e) (ent_label e).

(** The line logged for [e] when spaCy gives no span for it. *)
Definition logged {Span : Type} (char_span : list N -> Z -> Z -> string -> option Span)
           (text : list N) (e : entity) : option log_line :=
  match span_of char_span text e with
  | Some _ => None
  | None => Some (InvalidSpan (ent_start e) (ent_end e) (take 60 text))
  end.

(** One record converted on its own, with an empty log. *)
Definition alone {Span : Type} (char_span : list N -> Z -> Z -> string -> option Span)
           (r : example) : doc_state :=
  scan_entities char_span (ex_text r) [] (ex_entities r).

End PreprocessingSpec.

(** ** Further vocabulary for the scripts *)

Module ScriptsSpec.
Import Py PyValue Script.
Local Open Scope string_scope.

(** [s] with every newline replaced by a space. *)
Fixpoint spaces_for_newlines (s : string) : string :=
  match s with
  | EmptyString => EmptyString
  | String c rest =>
      String (if Ascii.eqb c (Ascii.ascii_of_nat 10) then Ascii.ascii_of_nat 32 else c)
             (spaces_for_newlines rest)
  end.

(** The text of the pages, one after the other. *)
Definition raw_text (pages : list string) : string :=
  foldl (fun text page => text ++ page) EmptyString pages.

(** [s] holds a newline. *)
Fixpoint has_newline (s : string) : bool :=
  match s with
  | EmptyString => false
  | String c rest => Ascii.eqb c (Ascii.ascii_of_nat 10) || has_newline rest
  end.

(** The keys that configs/spacy_train_sweep.py reads from [wandb.config]. *)
Definition required_keys : list string :=
  ["training.dropout"; "training.optimizer.learn_rate";
   "training.batcher.size"; "components.ner.model.hidden_width"].

Definition project_key : string := "training.logger.project_name".

End ScriptsSpec.

(** ** Sample worlds for the scripts *)

Module MoreSamples.
Import Py PyValue Script DataPreprocessing.
Local Open Scope string_scope.

(** A machine on which the preprocessing script finds [raw] in its input
    file, the split puts the first record in the test part, spaCy makes no
    span at all and writing a DocBin answers [disk]. *)
Definition preprocessing_world (raw : list example)
           (disk : result PreprocessingMain.failure unit)
  : @PreprocessingMain.world unit :=
  PreprocessingMain.World
    (fun _ => false) (fun _ => Returned tt)
    (fun _ => Returned raw)
    (fun data => Returned (drop 1 data, take 1 data))
    (fun _ _ _ _ => None)
    (fun _ => Returned tt)
    (fun _ _ => disk).

(** A machine whose local libraries work and whose network does not. *)
Definition offline_pipeline : Inference.world :=
  Inference.World
    (fun e => match e with LibraryError message => message | _ => "error" end)
    (fun _ => "None")
    (fun _ => Returned ["Ann knows SQL"]) (fun _ => Returned (fun _ => Returned []))
    (fun _ => Returned tt) (fun _ => Returned tt) (fun _ => "rows")
    (fun _ => Returned "Data Analyst") (fun _ => Returned "[]") (fun _ => "{}")
    (fun _ => Raised (LibraryError "Connection refused"))
    (fun _ => Returned tt).

(** A machine on which the entity JSON cannot be written. *)
Definition full_disk : Inference.world :=
  Inference.World
    (fun e => match e with LibraryError message => message | _ => "error" end)
    (fun _ => "None")
    (fun _ => Returned ["Ann knows SQL"]) (fun _ => Returned (fun _ => Returned []))
    (fun _ => Returned tt) (fun _ => Raised (LibraryError "No space left on device"))
    (fun _ => "rows")
    (fun _ => Returned "Data Analyst") (fun _ => Returned "[]") (fun _ => "{}")
    (fun _ => Raised (LibraryError "Connection refused"))
    (fun _ => Returned tt).

(** A sweep trial whose configuration lacks the batch size. *)
Definition incomplete_trial : SpacyTrainSweep.world :=
  SpacyTrainSweep.World
    (fun e => match e with LibraryError message => message | _ => "error" end)
    (Returned tt)
    [("training.dropout", JFloat "0.1");
     ("training.optimizer.learn_rate", JFloat "0.001");
     ("components.ner.model.hidden_width", JInt 64)]
    (fun _ _ => Returned tt)
    (fun _ => Returned tt).

Definition two_records : list example :=
  [ Annotated (codepoints "Ann knows SQL") [Entity 0 3 "NAME"];
    Annotated (codepoints "Bob knows Go") [Entity 0 3 "NAME"; Entity 10 12 "SKILL"] ].

End MoreSamples.

(** ** Proofs *)

Module TrimFacts.
Import Py DataPreprocessing TrimSpec.

Lemma getitem_nonneg (text : list N) (i : Z) :
  0 <= i < len text ->
  exists c, text !! Z.to_nat i = Some c /\ getitem text i = Returned c.
Proof.
  intros Hi. unfold getitem.
  destruct (Z.ltb_spec i 0) as [?|_]; [lia|].
  destruct (Z.leb_spec 0 i) as [_|?]; [|lia].
  destruct (Z.ltb_spec i (len text)) as [_|?]; [|lia]. simpl.
  destruct (lookup_lt_is_Some_2 text (Z.to_nat i)) as [c Hc].
  { unfold len in Hi. lia. }
  exists c. by rewrite Hc.
Qed.

Lemma advance_start_spec (n : nat) (text : list N) (vs : Z) :
  0 <= vs -> len text - vs <= Z.of_nat n ->
  exists s', advance_start n text vs = Returned s'
    /\ vs <= s' /\ (vs <= len text -> s' <= len text)
    /\ (forall i, vs <= i < s' -> ws_at text i)
    /\ (s' < len text -> nonws_at text s').
Proof.
  revert vs. induction n as [|n IH]; intros vs Hvs Hn; simpl.
  { exists vs. split_and!; [done|lia|lia|intros; lia|intros; lia]. }
  destruct (Z.ltb_spec vs (len text)) as [Hlt|Hge].
  2:{ exists vs. split_and!; [done|lia|lia|intros; lia|intros; lia]. }
  destruct (getitem_nonneg text vs) as (c & Hc & ->); [lia|]. simpl.
  destruct (invalid_span_tokens c) eqn:Hws.
  - destruct (IH (vs + 1)) as (s' & Hr & H1 & H2 & H3 & H4); [lia|lia|].
    exists s'. split_and!; [done|lia|lia| |done].
    intros i Hi. destruct (decide (i = vs)) as [->|Hne].
    + split; [done|]. by exists c.
    + apply H3. lia.
  - exists vs. split_and!; [done|lia|lia|intros; lia|].
    intros _. split; [done|]. by exists c.
Qed.

Lemma retract_end_spec (n : nat) (text : list N) (vs ve : Z) :
  0 <= vs -> ve <= len text -> ve - vs <= Z.of_nat n ->
  exists e', retract_end n text vs ve = Returned e'
    /\ e' <= ve /\ Z.min vs ve <= e'
    /\ (forall i, e' <= i < ve -> ws_at text i)
    /\ (vs < e' -> nonws_at text (e' - 1)).
Proof.
  intros Hvs. revert ve. induction n as [|n IH]; intros ve Hve Hn; simpl.
  { exists ve. split_and!; [done|lia|lia|intros; lia|intros; lia]. }
  destruct (Z.ltb_spec vs ve) as [Hlt|Hge].
  2:{ exists ve. split_and!; [done|lia|lia|intros; lia|intros; lia]. }
  destruct (getitem_nonneg text (ve - 1)) as (c & Hc & ->); [lia|]. simpl.
  destruct (invalid_span_tokens c) eqn:Hws.
  - destruct (IH (ve - 1)) as (e' & Hr & H1 & H2 & H3 & H4); [lia|lia|].
    exists e'. split_and!; [done|lia|lia| |done].
    intros i Hi. destruct (decide (i = ve - 1)) as [->|Hne].
    + split; [lia|]. by exists c.
    + apply H3. lia.
  - exists ve. split_and!; [done|lia|lia|intros; lia|].
    intros _. split; [lia|]. by exists c.
Qed.

(** The loops of [trim_start] and [trim_end] obey the equation of their
    [while] statement, whatever the offsets. *)
Lemma trim_start_unfold (text : list N) (vs : Z) :
  trim_start text vs =
  if vs <? len text then
    c <- getitem text vs ;;
    if invalid_span_tokens c then trim_start text (vs + 1) else Returned vs
  else Returned vs.
Proof.
  unfold trim_start. destruct (Z.ltb_spec vs (len text)) as [Hlt|Hge].
  - replace (Z.to_nat (len text - vs)) with (S (Z.to_nat (len text - (vs + 1)))) by lia.
    simpl. by destruct (Z.ltb_spec vs (len text)); [|lia].
  - by replace (Z.to_nat (len text - vs)) with O by lia.
Qed.

Lemma trim_end_unfold (text : list N) (vs ve : Z) :
  trim_end text vs ve =
  if vs <? ve then
    c <- getitem text (ve - 1) ;;
    if invalid_span_tokens c then trim_end text vs (ve - 1) else Returned ve
  else Returned ve.
Proof.
  unfold trim_end. destruct (Z.ltb_spec vs ve) as [Hlt|Hge].
  - replace (Z.to_nat (ve - vs)) with (S (Z.to_nat (ve - 1 - vs))) by lia.
    simpl. by destruct (Z.ltb_spec vs ve); [|lia].
  - by replace (Z.to_nat (ve - vs)) with O by lia.
Qed.

Lemma ws_at_lt_len (text : list N) (i : Z) : ws_at text i -> 0 <= i < len text.
Proof.
  intros (Hi & c & Hc & _). apply lookup_lt_Some in Hc. unfold len. lia.
Qed.

Lemma ws_nonws_excl (text : list N) (i : Z) : ws_at text i -> nonws_at text i -> False.
Proof. intros (_ & c & Hc & Hw) (_ & c' & Hc' & Hn). congruence. Qed.

(** The two descriptions determine the trimmed offsets. *)
Lemma leading_trimmed_unique (text : list N) (start s1 s2 : Z) :
  leading_trimmed text start s1 -> leading_trimmed text start s2 -> s1 = s2.
Proof.
  intros (Hb1 & Hw1 & Hn1) (Hb2 & Hw2 & Hn2).
  destruct (Z.lt_trichotomy s1 s2) as [Hlt|[Heq|Hgt]]; [|done|]; exfalso.
  - assert (Hw : ws_at text s1) by (apply Hw2; lia).
    apply (ws_nonws_excl text s1 Hw), Hn1. apply ws_at_lt_len in Hw. lia.
  - assert (Hw : ws_at text s2) by (apply Hw1; lia).
    apply (ws_nonws_excl text s2 Hw), Hn2. apply ws_at_lt_len in Hw. lia.
Qed.

Lemma trailing_trimmed_unique (text : list N) (s' end_ e1 e2 : Z) :
  trailing_trimmed text s' end_ e1 -> trailing_trimmed text s' end_ e2 -> e1 = e2.
Proof.
  intros (Hb1 & Hl1 & Hw1 & Hn1) (Hb2 & Hl2 & Hw2 & Hn2).
  destruct (Z.lt_trichotomy e1 e2) as [Hlt|[Heq|Hgt]]; [|done|]; exfalso.
  - apply (ws_nonws_excl text (e2 - 1)); [apply Hw1|apply Hn2]; lia.
  - apply (ws_nonws_excl text (e1 - 1)); [apply Hw2|apply Hn1]; lia.
Qed.

Lemma trim_start_spec (text : list N) (start : Z) :
  0 <= start ->
  exists s', trim_start text start = Returned s'
             /\ leading_trimmed text start s'
             /\ (start <= len text -> s' <= len text).
Proof.
  intros H.
  destruct (advance_start_spec (Z.to_nat (len text - start)) text start)
    as (s' & Hr & H1 & H2 & H3 & H4); [lia|lia|].
  exists s'. by split_and!.
Qed.

Lemma trim_end_spec (text : list N) (vs end_ : Z) :
  0 <= vs -> end_ <= len text ->
  exists e', trim_end text vs end_ = Returned e'
             /\ trailing_trimmed text vs end_ e'.
Proof. intros H1 H2. apply retract_end_spec; lia. Qed.

Lemma trim_entities_spec (text : list N) (entities acc : list entity) :
  Forall (offsets_in_range text) entities ->
  exists os, Forall2 (trimmed_entity text) entities os
             /\ trim_entities text entities acc = Returned (acc ++ omap id os)
             /\ Forall (clean text) (omap id os).
Proof.
  intros Hin. revert acc.
  induction Hin as [|[start end_ label] entities [Hs He] _ IH]; intros acc.
  { exists []. simpl. rewrite app_nil_r. by split_and!. }
  simpl in Hs, He. simpl.
  destruct (trim_start_spec text start Hs) as (s' & -> & Hlead & Hle). simpl.
  assert (0 <= s') as Hs' by (destruct Hlead; lia).
  destruct (trim_end_spec text s' end_ Hs' He) as (e' & -> & Htrail). simpl.
  destruct (Z.ltb_spec s' e') as [Hlt|Hge].
  - destruct (IH (acc ++ [Entity s' e' label])) as (os & HF & -> & Hc).
    exists (Some (Entity s' e' label) :: os). split_and!.
    + constructor; [|done]. exists s', e'. split_and!; [done|done|].
      simpl. by destruct (Z.ltb_spec s' e'); [|lia].
    + simpl. by rewrite <- app_assoc.
    + simpl. constructor; [|done].
      destruct Hlead as (? & ? & Hn), Htrail as (? & ? & ? & Hn').
      unfold clean; simpl. split_and!; [lia|lia|lia|apply Hn; lia|by apply Hn'].
  - destruct (IH acc) as (os & HF & -> & Hc).
    exists (None :: os). split_and!; [|done|done].
    constructor; [|done]. exists s', e'. split_and!; [done|done|].
    simpl. by destruct (Z.ltb_spec s' e'); [lia|].
Qed.

Lemma trim_records_spec (data acc : list example) :
  data_in_range data ->
  exists out, trim_records data acc = Returned (acc ++ out)
              /\ Forall2 trimmed_example data out.
Proof.
  intros Hin. revert acc.
  induction Hin as [|[text entities] data Hr _ IH]; intros acc.
  { exists []. simpl. by rewrite app_nil_r. }
  simpl in Hr. simpl.
  destruct (trim_entities_spec text entities [] Hr) as (os & HF & -> & Hc).
  simpl. destruct (IH (acc ++ [Annotated text (omap id os)])) as (out & -> & Hout).
  exists (Annotated text (omap id os) :: out). split.
  - by rewrite <- app_assoc.
  - constructor; [|done]. split_and!; [done| |done]. by exists os.
Qed.

(** Trimming leaves a clean span as it is. *)
Lemma trim_clean_entity (text : list N) (e : entity) :
  clean text e ->
  trim_start text (ent_start e) = Returned (ent_start e)
  /\ trim_end text (ent_start e) (ent_end e) = Returned (ent_end e).
Proof.
  destruct e as [s e l]. unfold clean. simpl.
  intros (Hlt & Hle & (_ & c & Hc & Hn) & (_ & c' & Hc' & Hn')).
  assert (getitem text s = Returned c) as Hg.
  { destruct (getitem_nonneg text s) as (c0 & Hc0 & ->); [lia|]. congruence. }
  assert (getitem text (e - 1) = Returned c') as Hg'.
  { destruct (getitem_nonneg text (e - 1)) as (c0 & Hc0 & ->); [lia|]. congruence. }
  split.
  - unfold trim_start.
    destruct (Z.to_nat (len text - s)) as [|n] eqn:Hfuel; [lia|]. simpl.
    destruct (Z.ltb_spec s (len text)); [|lia]. rewrite Hg. simpl. by rewrite Hn.
  - unfold trim_end.
    destruct (Z.to_nat (e - s)) as [|n] eqn:Hfuel; [lia|]. simpl.
    destruct (Z.ltb_spec s e); [|lia]. rewrite Hg'. simpl. by rewrite Hn'.
Qed.

Lemma trim_entities_clean (text : list N) (entities acc : list entity) :
  Forall (clean text) entities ->
  trim_entities text entities acc = Returned (acc ++ entities).
Proof.
  intros Hc. revert acc.
  induction Hc as [|e entities He _ IH]; intros acc; simpl.
  { by rewrite app_nil_r. }
  destruct (trim_clean_entity text e He) as [Hs Ht].
  destruct e as [s e l]. simpl in *. rewrite Hs. simpl. rewrite Ht. simpl.
  destruct He as (Hlt & _). simpl in Hlt.
  destruct (Z.ltb_spec s e); [|lia].
  rewrite IH. by rewrite <- app_assoc.
Qed.

Lemma trim_records_clean (data acc : list example) :
  Forall (fun r => Forall (clean (ex_text r)) (ex_entities r)) data ->
  trim_records data acc = Returned (acc ++ data).
Proof.
  intros Hc. revert acc.
  induction Hc as [|[text entities] data He _ IH]; intros acc; simpl.
  { by rewrite app_nil_r. }
  simpl in He. rewrite (trim_entities_clean text entities [] He). simpl.
  rewrite IH. by rewrite <- app_assoc.
Qed.

(** What the two loops have done when they return, whatever the
    offsets. *)
Lemma advance_start_sound (n : nat) (text : list N) (vs s' : Z) :
  len text - vs <= Z.of_nat n ->
  advance_start n text vs = Returned s' ->
  vs <= s'
  /\ (forall i, vs <= i < s' -> reads_ws text i)
  /\ (s' < len text -> reads_nonws text s').
Proof.
  revert vs. induction n as [|n IH]; intros vs Hn; simpl.
  { intros [= <-]. split_and!; [lia|intros; lia|intros; lia]. }
  destruct (Z.ltb_spec vs (len text)) as [Hlt|Hge].
  2:{ intros [= <-]. split_and!; [lia|intros; lia|intros; lia]. }
  destruct (getitem text vs) as [c|err] eqn:Hc; simpl; [|done].
  destruct (invalid_span_tokens c) eqn:Hws.
  - intros Hr. destruct (IH (vs + 1)) as (H1 & H2 & H3); [lia|done|].
    split_and!; [lia| |done].
    intros i Hi. destruct (decide (i = vs)) as [->|Hne]; [by exists c|]. apply H2. lia.
  - intros [= <-]. split_and!; [lia|intros; lia|]. intros _. by exists c.
Qed.

Lemma retract_end_sound (n : nat) (text : list N) (vs ve e' : Z) :
  ve - vs <= Z.of_nat n ->
  retract_end n text vs ve = Returned e' ->
  e' <= ve /\ Z.min vs ve <= e'
  /\ (forall i, e' <= i < ve -> reads_ws text i)
  /\ (vs < e' -> reads_nonws text (e' - 1)).
Proof.
  revert ve. induction n as [|n IH]; intros ve Hn; simpl.
  { intros [= <-]. split_and!; [lia|lia|intros; lia|intros; lia]. }
  destruct (Z.ltb_spec vs ve) as [Hlt|Hge].
  2:{ intros [= <-]. split_and!; [lia|lia|intros; lia|intros; lia]. }
  destruct (getitem text (ve - 1)) as [c|err] eqn:Hc; simpl; [|done].
  destruct (invalid_span_tokens c) eqn:Hws.
  - intros Hr. destruct (IH (ve - 1)) as (H1 & H2 & H3 & H4); [lia|done|].
    split_and!; [lia|lia| |done].
    intros i Hi. destruct (decide (i = ve - 1)) as [->|Hne]; [by exists c|]. apply H3. lia.
  - intros [= <-]. split_and!; [lia|lia|intros; lia|]. intros _. by exists c.
Qed.

Lemma trim_entities_reduced (text : list N) (entities acc out : list entity) :
  trim_entities text entities acc = Returned out ->
  exists os, Forall2 (reduced_entity text) entities os /\ out = acc ++ omap id os.
Proof.
  revert acc. induction entities as [|[start end_ label] entities IH]; intros acc; simpl.
  { intros [= <-]. exists []. by rewrite app_nil_r. }
  destruct (trim_start text start) as [s'|] eqn:Hs; [simpl|done].
  destruct (trim_end text s' end_) as [e'|] eqn:He; [simpl|done].
  apply advance_start_sound in Hs; [|lia]. apply retract_end_sound in He; [|lia].
  assert (reduced_entity text (Entity start end_ label)
            (if s' <? e' then Some (Entity s' e' label) else None)) as Hred.
  { by exists s', e'. }
  destruct (s' <? e').
  - intros (os & HF & ->)%IH. exists (Some (Entity s' e' label) :: os).
    split; [by constructor|]. simpl. by rewrite <- app_assoc.
  - intros (os & HF & ->)%IH. exists (None :: os). split; [by constructor|done].
Qed.

Lemma trim_records_reduced (data acc out : list example) :
  trim_records data acc = Returned out ->
  exists new, out = acc ++ new /\ Forall2 offsets_only data new.
Proof.
  revert acc. induction data as [|[text entities] data IH]; intros acc; simpl.
  { intros [= <-]. exists []. by rewrite app_nil_r. }
  destruct (trim_entities text entities []) as [valid|] eqn:Hv; [simpl|done].
  apply trim_entities_reduced in Hv as (os & HF & ->). simpl.
  intros (out' & -> & Hout)%IH.
  exists (Annotated text (omap id os) :: out'). split; [by rewrite <- app_assoc|].
  constructor; [|done]. split; [done|]. by exists os.
Qed.

Lemma trim_entities_frame (text : list N) (entities acc out : list entity) :
  trim_entities text entities acc = Returned out ->
  exists new, out = acc ++ new /\ selection_of entities new.
Proof.
  revert acc. induction entities as [|[start end_ label] entities IH]; intros acc; simpl.
  { intros [= <-]. exists []. rewrite app_nil_r. split; [done|].
    exists []. by split; constructor. }
  destruct (trim_start text start) as [s'|]; [simpl|done].
  destruct (trim_end text s' end_) as [e'|]; [simpl|done].
  destruct (s' <? e').
  - intros (new & -> & sel & Hsub & Hlab)%IH.
    exists (Entity s' e' label :: new). split; [by rewrite <- app_assoc|].
    exists (Entity start end_ label :: sel). split.
    + by apply sublist_skip.
    + by constructor.
  - intros (new & -> & sel & Hsub & Hlab)%IH.
    exists new. split; [done|]. exists sel. split; [|done]. by apply sublist_cons.
Qed.

Lemma trim_records_frame (data acc out : list example) :
  trim_records data acc = Returned out ->
  exists new, out = acc ++ new /\ Forall2 framed_example data new.
Proof.
  revert acc. induction data as [|[text entities] data IH]; intros acc; simpl.
  { intros [= <-]. exists []. by rewrite app_nil_r. }
  destruct (trim_entities text entities []) as [valid|] eqn:Hv; [simpl|done].
  apply trim_entities_frame in Hv as (new & -> & Hsel). simpl.
  intros (out' & -> & Hout)%IH.
  exists (Annotated text new :: out'). split; [by rewrite <- app_assoc|].
  constructor; [|done]. by split.
Qed.

End TrimFacts.

Module TrimTheorems.
Import Py DataPreprocessing TrimSpec Samples TrimFacts.

Lemma data_ok_in_range (data : list example) : data_ok data -> data_in_range data.
Proof.
  unfold data_ok, data_in_range. intros H.
  eapply Forall_impl; [exact H|]. intros r Hr. simpl in Hr.
  eapply Forall_impl; [exact Hr|]. intros e [H1 H2]. split; lia.
Qed.

Lemma trimmed_examples_clean (data out : list example) :
  Forall2 trimmed_example data out ->
  Forall (fun r => Forall (clean (ex_text r)) (ex_entities r)) out.
Proof.
  induction 1 as [|r r' data out (Ht & _ & Hc) _ IH]; constructor; [|done].
  by rewrite Ht.
Qed.

Lemma sample_ok : data_ok sample.
Proof.
  repeat first [apply Forall_nil_2 | apply Forall_cons_2 | split]; by vm_compute.
Qed.

(** C1: on a record whose spans satisfy [0 <= start <= end <= len(text)],
    trim_entity_spans returns, record by record, the same text with each
    span replaced by its trimmed span: the start advanced past all leading
    whitespace, the end retracted past all trailing whitespace and never
    below the new start; the entity is kept exactly when the new start is
    below the new end, and every kept span begins and ends with a character
    of the text that is not whitespace. *)
Theorem trim_entity_spans_trims (data : list example) :
  data_ok data ->
  exists out, trim_entity_spans data = Returned out
              /\ Forall2 trimmed_example data out.
Proof.
  intros Hok%data_ok_in_range.
  destruct (trim_records_spec data [] Hok) as (out & Hr & Hout).
  exists out. by split.
Qed.

Lemma trim_entity_spans_trims_witness :
  data_ok sample
  /\ exists out, trim_entity_spans sample = Returned out
                 /\ Forall2 trimmed_example sample out.
Proof. split; [exact sample_ok | exact (trim_entity_spans_trims sample sample_ok)]. Defined.

Example trim_sample :
  trim_entity_spans sample
  = Returned [ Annotated (codepoints " ab  c ") [Entity 1 3 "NAME"; Entity 5 6 "SKILL"];
               Annotated (codepoints "x") [] ].
Proof. reflexivity. Qed.

(** C3, as stated, fails: an end offset beyond the text raises IndexError,
    and a negative start is indexed from the end of the text and comes out
    unchanged. *)
Lemma trim_entity_spans_validates_counterexample :
  trim_entity_spans [Annotated (codepoints "ab") [Entity 0 5 "SKILL"]] = Raised IndexError
  /\ trim_entity_spans [Annotated (codepoints "ab") [Entity (-1) 1 "SKILL"]]
     = Returned [Annotated (codepoints "ab") [Entity (-1) 1 "SKILL"]]
  /\ ~ validates [Annotated (codepoints "ab") [Entity 0 5 "SKILL"]]
  /\ ~ validates [Annotated (codepoints "ab") [Entity (-1) 1 "SKILL"]].
Proof.
  split_and!; [reflexivity | reflexivity | |]; intros (out & Hr & Hv); vm_compute in Hr.
  - discriminate.
  - injection Hr as <-.
    apply Forall_cons_1 in Hv as [He _]. apply Forall_cons_1 in He as [He _].
    simpl in He. lia.
Qed.

(** C3, amended: for offsets with [0 <= start] and [end <= len(text)] the
    function returns without raising, and every span it outputs satisfies
    [0 <= start' < end' <= len(text)]. *)
Theorem trim_entity_spans_in_range_valid (data : list example) :
  data_in_range data -> validates data.
Proof.
  intros Hin. destruct (trim_records_spec data [] Hin) as (out & Hr & Hout).
  exists out. split; [done|].
  apply trimmed_examples_clean in Hout. unfold spans_valid.
  eapply Forall_impl; [exact Hout|]. intros r Hc. simpl in Hc.
  eapply Forall_impl; [exact Hc|]. intros e (H1 & H2 & _). by split.
Qed.

Lemma sample_in_range_ok : data_in_range sample_in_range.
Proof.
  repeat first [apply Forall_nil_2 | apply Forall_cons_2 | split]; by vm_compute.
Qed.

Lemma trim_entity_spans_in_range_valid_witness :
  data_in_range sample_in_range /\ validates sample_in_range.
Proof.
  split; [exact sample_in_range_ok
         | exact (trim_entity_spans_in_range_valid sample_in_range sample_in_range_ok)].
Defined.

(** C5: when trim_entity_spans returns, the result has one record per
    input record, in the same order, each with the text of its input
    record; the entities of a record are the outcomes of the input
    entities, one by one and in order: an entity keeps its label, its start
    is only advanced and its end only retracted, past characters read as
    whitespace, and it is dropped only when the span that is left is empty,
    so that the entities of the result are a selection, in order, of the
    input entities and none is added; for offsets in range each outcome is
    the trimmed span of its entity; the function raises only on offsets out
    of range. *)
Theorem trim_entity_spans_frame (data : list example) :
  match trim_entity_spans data with
  | Returned out =>
      length out = length data
      /\ Forall2 offsets_only data out
      /\ Forall2 framed_example data out
      /\ (data_in_range data -> Forall2 trimmed_example data out)
  | Raised _ => ~ data_in_range data
  end.
Proof.
  destruct (trim_entity_spans data) as [out|err] eqn:Hr.
  - split_and!.
    + apply trim_records_frame in Hr as (new & -> & HF). simpl.
      symmetry. by eapply Forall2_length.
    + by apply trim_records_reduced in Hr as (new & -> & HF).
    + by apply trim_records_frame in Hr as (new & -> & HF).
    + intros Hin. destruct (trim_records_spec data [] Hin) as (out' & Hr' & Hout).
      unfold trim_entity_spans in Hr. rewrite Hr in Hr'. by injection Hr' as ->.
  - intros Hin. destruct (trim_records_spec data [] Hin) as (out & Hr' & _).
    unfold trim_entity_spans in Hr. congruence.
Qed.

(** C7: on spans inside the bounds of their texts, trimming the trimmed
    data changes nothing. *)
Theorem trim_entity_spans_idempotent (data : list example) :
  data_ok data ->
  exists out, trim_entity_spans data = Returned out
              /\ trim_entity_spans out = Returned out.
Proof.
  intros Hok%data_ok_in_range.
  destruct (trim_records_spec data [] Hok) as (out & Hr & Hout).
  exists out. split; [done|].
  apply trimmed_examples_clean in Hout.
  unfold trim_entity_spans. by rewrite trim_records_clean.
Qed.

Lemma trim_entity_spans_idempotent_witness :
  data_ok sample
  /\ exists out, trim_entity_spans sample = Returned out
                 /\ trim_entity_spans out = Returned out.
Proof. split; [exact sample_ok | exact (trim_entity_spans_idempotent sample sample_ok)]. Defined.

End TrimTheorems.

Module ConvertFacts.
Import Py DataPreprocessing ConvertSpec.

Lemma elem_of_range (start stop idx : Z) :
  idx ∈ range start stop <-> start <= idx < stop.
Proof. unfold range. rewrite elem_of_seqZ. lia. Qed.

Lemma any_taken_spec (entity_indices : list Z) (start end_ : Z) :
  any_taken entity_indices start end_ = true
  <-> exists idx, start <= idx < end_ /\ idx ∈ entity_indices.
Proof.
  unfold any_taken. rewrite existsb_exists. split.
  - intros (idx & Hin%list_elem_of_In%elem_of_range & Hd%bool_decide_eq_true).
    by exists idx.
  - intros (idx & Hr & Hin). exists idx. split.
    + apply list_elem_of_In. by rewrite elem_of_range.
    + by apply bool_decide_eq_true.
Qed.

Lemma pairwise_disjoint_snoc (l : list entity) (e : entity) :
  pairwise_disjoint l ->
  (forall e0, e0 ∈ l -> ~ shares_index e0 e) ->
  pairwise_disjoint (l ++ [e]).
Proof.
  intros Hl He i j e1 e2 Hij H1 H2.
  destruct (decide (j < length l)%nat) as [Hj|Hj].
  - rewrite lookup_app_l in H1, H2 by lia. exact (Hl i j e1 e2 Hij H1 H2).
  - assert (j = length l) as ->.
    { apply lookup_lt_Some in H2. rewrite length_app in H2. simpl in H2. lia. }
    rewrite lookup_app_l in H1 by lia.
    rewrite list_lookup_middle in H2 by done. injection H2 as <-.
    apply He. by eapply list_elem_of_lookup_2.
Qed.

Section Loop.
Context {Span : Type}.
Variable char_span : list N -> Z -> Z -> string -> option Span.

Lemma visit_passed (text : list N) (st : @doc_state Span) (e : entity) :
  passed (visit char_span text st e)
  = if any_taken (entity_indices st) (ent_start e) (ent_end e)
    then passed st else passed st ++ [e].
Proof.
  destruct e as [start end_ label]. simpl.
  destruct (any_taken _ _ _); [done|]. by destruct (char_span _ _ _ _).
Qed.

Lemma visit_entity_indices (text : list N) (st : @doc_state Span) (e : entity) :
  entity_indices (visit char_span text st e)
  = if any_taken (entity_indices st) (ent_start e) (ent_end e)
    then entity_indices st
    else entity_indices st ++ range (ent_start e) (ent_end e).
Proof.
  destruct e as [start end_ label]. simpl.
  destruct (any_taken _ _ _); [done|]. by destruct (char_span _ _ _ _).
Qed.

Lemma scan_entities_snoc (text : list N) (file0 : list log_line)
      (pre : list entity) (e : entity) :
  scan_entities char_span text file0 (pre ++ [e])
  = visit char_span text (scan_entities char_span text file0 pre) e.
Proof. unfold scan_entities. by rewrite foldl_app. Qed.

Lemma filter_inv_init (file0 : list log_line) :
  filter_inv (Span := Span) (DocState [] [] file0 []).
Proof.
  split.
  - intros idx. simpl. split.
    + by intros ?%elem_of_nil.
    + by intros (e0 & ?%elem_of_nil & _).
  - intros i j e1 e2 _ H1. simpl in H1. by apply lookup_lt_Some in H1; simpl in H1; lia.
Qed.

(** The guard of the loop holds exactly when an entity passed on earlier
    shares an index with [e]. *)
Lemma any_taken_shares (st : @doc_state Span) (e : entity) :
  filter_inv st ->
  any_taken (entity_indices st) (ent_start e) (ent_end e) = true
  <-> exists e0, e0 ∈ passed st /\ shares_index e0 e.
Proof.
  intros [Hidx _]. rewrite any_taken_spec. split.
  - intros (idx & Hr & (e0 & Hin & Hc)%Hidx). exists e0. split; [done|].
    by exists idx.
  - intros (e0 & Hin & idx & Hc0 & Hc). exists idx. split; [done|].
    apply Hidx. by exists e0.
Qed.

Lemma visit_inv (text : list N) (st : @doc_state Span) (e : entity) :
  filter_inv st -> filter_inv (visit char_span text st e).
Proof.
  intros Hinv. pose proof (any_taken_shares st e Hinv) as Hguard.
  destruct Hinv as [Hidx Hdis].
  unfold filter_inv. rewrite visit_passed, visit_entity_indices.
  destruct (any_taken _ _ _) eqn:Hany; [done|].
  split.
  - intros idx. rewrite elem_of_app, elem_of_range, Hidx. split.
    + intros [(e0 & Hin & Hc)|Hr].
      * exists e0. split; [|done]. apply elem_of_app. by left.
      * exists e. split; [|done]. apply elem_of_app. right. by apply list_elem_of_singleton.
    + intros (e0 & [Hin| ->%list_elem_of_singleton]%elem_of_app & Hc).
      * left. by exists e0.
      * by right.
  - apply pairwise_disjoint_snoc; [done|].
    intros e0 Hin Hsh. assert (false = true) as Habs; [|done].
    apply Hguard. by exists e0.
Qed.

Lemma scan_entities_inv (text : list N) (file0 : list log_line)
      (entities : list entity) :
  filter_inv (scan_entities char_span text file0 entities).
Proof.
  induction entities as [|e pre IH] using rev_ind.
  - apply filter_inv_init.
  - rewrite scan_entities_snoc. by apply visit_inv.
Qed.

(** The entities passed on are a selection, in order, of the record's
    entities. *)
Lemma scan_entities_sublist (text : list N) (file0 : list log_line)
      (entities : list entity) :
  sublist (passed (scan_entities char_span text file0 entities)) entities.
Proof.
  induction entities as [|e pre IH] using rev_ind; [done|].
  rewrite scan_entities_snoc, visit_passed.
  destruct (any_taken _ _ _).
  - by apply sublist_inserts_r.
  - by apply sublist_app.
Qed.


End Loop.

(** The decisions of the filter depend on the record's entities alone:
    not on the text, on the state of the error log or on what spaCy
    answers. *)
Lemma scan_entities_independent {Span1 Span2 : Type}
      (cs1 : list N -> Z -> Z -> string -> option Span1)
      (cs2 : list N -> Z -> Z -> string -> option Span2)
      (text1 text2 : list N) (file1 file2 : list log_line) (entities : list entity) :
  passed (scan_entities cs1 text1 file1 entities)
  = passed (scan_entities cs2 text2 file2 entities)
  /\ entity_indices (scan_entities cs1 text1 file1 entities)
     = entity_indices (scan_entities cs2 text2 file2 entities).
Proof.
  induction entities as [|e pre [IHp IHi]] using rev_ind; [done|].
  rewrite !scan_entities_snoc, !visit_passed, !visit_entity_indices.
  rewrite IHp, IHi. by destruct (any_taken _ _ _).
Qed.

(** Every record is filtered from a fresh [entity_indices]: the requests
    of a run are those of its records, each taken alone. *)
Lemma span_requests_foldl {Span : Type}
      (cs : list N -> Z -> Z -> string -> option Span)
      (c : corpus) (data : list example) :
  span_requests (foldl (add_record cs) c data)
  = span_requests c
    ++ map (fun r => passed (scan_entities cs (ex_text r) [] (ex_entities r))) data.
Proof.
  revert c. induction data as [|r data IH]; intros c; simpl.
  { by rewrite app_nil_r. }
  rewrite IH. simpl. rewrite <- app_assoc. simpl. do 2 f_equal.
  apply scan_entities_independent.
Qed.

End ConvertFacts.

Module InferenceFacts.
Import Py PyValue Script Inference InferenceSpec.
Local Open Scope string_scope.

(** One run of get_recruiter_summary once [ner_results] is written out:
    the announcement, the request, and a returned value in every case. *)
Lemma get_recruiter_summary_run (w : world) (cfg : config) (job_position : string)
      (ner_results : json) (dumped : string) :
  json_dumps_indent w ner_results = Returned dumped ->
  let req := summary_request w cfg job_position dumped in
  get_recruiter_summary w cfg job_position ner_results
  = ([Print "🧩 Calling OpenRouter API for recruiter analysis..."; Post req],
     Returned match fetch_content w req with
              | Returned content => content
              | Raised e => JStr (error_prefix ++ exc_str w e)
              end).
Proof.
  intros Hdumps req. unfold get_recruiter_summary, fetch_content, read_content.
  rewrite Hdumps. simpl. fold req.
  destruct (requests_post w req) as [[status parsed]|e]; simpl; [|done].
  destruct status as [[]|e]; simpl; [|done].
  destruct parsed as [result|e]; simpl; [|done].
  destruct (getitem result (Key "choices")) as [choices|e]; simpl; [|done].
  destruct (getitem choices (Index 0)) as [choice|e]; simpl; [|done].
  destruct (getitem choice (Key "message")) as [message|e]; simpl; [|done].
  by destruct (getitem message (Key "content")) as [content|e].
Qed.

(** When [ner_results] cannot be written out, the exception leaves the
    function before the [try]. *)
Lemma get_recruiter_summary_unwritable (w : world) (cfg : config) (job_position : string)
      (ner_results : json) (e : exn) :
  json_dumps_indent w ner_results = Raised e ->
  get_recruiter_summary w cfg job_position ner_results = ([], Raised (Exception e)).
Proof. intros Hdumps. unfold get_recruiter_summary. by rewrite Hdumps. Qed.

Lemma get_recruiter_summary_returns (w : world) (cfg : config) (job_position : string)
      (ner_results : json) (dumped : string) :
  json_dumps_indent w ner_results = Returned dumped ->
  exists v, outcome (get_recruiter_summary w cfg job_position ner_results) = Returned v.
Proof. intros Hdumps. rewrite (get_recruiter_summary_run _ _ _ _ _ Hdumps). by eexists. Qed.


End InferenceFacts.

Module InferenceTheorems.
Import Py PyValue Script Inference InferenceSpec Samples InferenceFacts.
Local Open Scope string_scope.

Example document_text_sample :
  document_text ["John knows" ++ nl ++ "Python"; nl ++ "SQL"] = "John knows Python SQL".
Proof. reflexivity. Qed.

Example summary_sample :
  outcome (get_recruiter_summary (quiet_world "Data Analyst" (completion (JStr "COCOK")))
                                 (default_config None) "Data Analyst" (JList []))
  = Returned (JStr "COCOK").
Proof. reflexivity. Qed.

Example summary_malformed_sample :
  outcome (get_recruiter_summary (quiet_world "Data Analyst" (JDict [("choices", JList [])]))
                                 (default_config None) "Data Analyst" (JList []))
  = Returned (JStr ("❌ Error during recruiter summary generation: " ++ "error")).
Proof. reflexivity. Qed.

(** C8: for every sequence of entities the pipeline detects,
    perform_ner_inference returns two lists with one element per entity,
    in detection order; the i-th ner_json record is
    [[ent.text, {"entities": [[ent.start_char, ent.end_char, ent.label_]]}]]
    for the i-th entity: one offset triple, the entity's own text first, the
    entity's offsets in the document in the triple. *)
Theorem perform_ner_inference_records (w : world) (model_path doc_text : string)
        (nlp : pipeline) (doc_ents : list Ent) :
  spacy_load w model_path = Returned nlp ->
  nlp doc_text = Returned doc_ents ->
  exists entities ner_json,
    outcome (perform_ner_inference w model_path doc_text) = Returned (entities, ner_json)
    /\ length entities = length doc_ents
    /\ length ner_json = length doc_ents
    /\ forall (i : nat) (ent : Ent),
         doc_ents !! i = Some ent ->
         entities !! i = Some (JDict [("Text", JStr (text ent)); ("Label", JStr (label_ ent))])
         /\ ner_json !! i
            = Some (JList [JStr (text ent);
                           JDict [("entities",
                                   JList [JList [JInt (start_char ent);
                                                 JInt (end_char ent);
                                                 JStr (label_ ent)]])]]).
Proof.
  intros Hload Hnlp. unfold perform_ner_inference.
  rewrite Hload. simpl. rewrite Hnlp. simpl.
  eexists _, _. split_and!; [reflexivity|by rewrite length_fmap..|].
  intros i ent Hi. rewrite !list_lookup_fmap, Hi. done.
Qed.

Lemma perform_ner_inference_records_witness :
  exists entities ner_json,
    outcome (perform_ner_inference (quiet_world "Data Analyst" JNone)
                                   "./output/model-last" "John knows Python")
    = Returned (entities, ner_json)
    /\ ner_json = [JList [JStr "Python";
                          JDict [("entities", JList [JList [JInt 11; JInt 17; JStr "SKILL"]])]]].
Proof.
  destruct (perform_ner_inference_records
              (quiet_world "Data Analyst" JNone) "./output/model-last" "John knows Python"
              (fun _ => Returned [Build_Ent "Python" "SKILL" 11 17])
              [Build_Ent "Python" "SKILL" 11 17] eq_refl eq_refl)
    as (entities & ner_json & Hout & _ & _ & _).
  exists entities, ner_json. split; [exact Hout|].
  vm_compute in Hout. by injection Hout as _ <-.
Defined.

(** An event of another kind than those of a given trace is not in it. *)
Ltac no_such_event :=
  let Hin := fresh "Hin" in
  intros Hin;
  repeat (apply elem_of_cons in Hin as [Hin|Hin]; [discriminate Hin|]);
  by apply elem_of_nil in Hin.

(** C6: when extraction and inference succeed and the output file is
    opened and written, the library calls of main are, in this order:
    opening the PDF, loading the model, the pipeline on the extracted text,
    opening the output file, dumping the ner_json built from the detected
    entities, closing the file; when closing fails main stops there; when it
    returns, the table of entities follows and then, exactly when
    USE_LLM_ANALYSIS is true, the prompt and (once it is answered and the
    same ner_json is written out for the prompt) the request built from that
    ner_json.  With USE_LLM_ANALYSIS false no request is sent, whatever the
    libraries do. *)
Theorem main_pipeline_order (w : world) (cfg : config) :
  (USE_LLM_ANALYSIS cfg = false -> forall req, Post req ∉ trace (main w cfg))
  /\ forall (pages : list string) (nlp : pipeline) (doc_ents : list Ent),
      fitz_open w (PDF_PATH cfg) = Returned pages ->
      spacy_load w (MODEL_PATH cfg) = Returned nlp ->
      nlp (document_text pages) = Returned doc_ents ->
      open_write w (OUTPUT_JSON cfg) = Returned tt ->
      json_dump w (JList (ner_record <$> doc_ents)) = Returned tt ->
      calls (trace (main w cfg))
      = ([FitzOpen (PDF_PATH cfg); SpacyLoad (MODEL_PATH cfg); Nlp (document_text pages);
          OpenWrite (OUTPUT_JSON cfg); JsonDump (JList (ner_record <$> doc_ents)); Close]
         ++ match file_close w (OUTPUT_JSON cfg) with
            | Raised _ => []
            | Returned _ =>
                DataFrame (JList (entity_row <$> doc_ents))
                :: if USE_LLM_ANALYSIS cfg
                   then Input prompt
                        :: match input w prompt,
                                 json_dumps_indent w (JList (ner_record <$> doc_ents)) with
                           | Returned answer, Returned dumped =>
                               [Post (summary_request w cfg (position_of answer) dumped)]
                           | _, _ => []
                           end
                   else []
            end)%list
      /\ (forall e, file_close w (OUTPUT_JSON cfg) = Raised e ->
                    outcome (main w cfg) = Raised (Exception e)).
Proof.
  split.
  - intros Hoff req. unfold main, extract_text_from_pdf, perform_ner_inference.
    rewrite Hoff.
    destruct (fitz_open w (PDF_PATH cfg)) as [pages|e]; simpl.
    2:{ no_such_event. }
    destruct (spacy_load w (MODEL_PATH cfg)) as [nlp|e]; simpl.
    2:{ no_such_event. }
    destruct (nlp _) as [doc_ents|e]; simpl.
    2:{ no_such_event. }
    destruct (open_write w (OUTPUT_JSON cfg)) as [[]|e]; simpl.
    2:{ no_such_event. }
    destruct (json_dump w _) as [[]|e]; simpl;
      destruct (file_close w (OUTPUT_JSON cfg)) as [[]|e']; simpl.
    all: no_such_event.
  - intros pages nlp doc_ents Hpdf Hload Hnlp Hopen Hdump.
    unfold main, extract_text_from_pdf, perform_ner_inference.
    rewrite Hpdf. simpl. rewrite Hload. simpl.
    fold (document_text pages). rewrite Hnlp. simpl.
    rewrite Hopen. simpl. rewrite Hdump. simpl.
    destruct (file_close w (OUTPUT_JSON cfg)) as [[]|e]; simpl.
    2:{ split; [done|]. by intros e' [= <-]. }
    split; [|done].
    destruct (USE_LLM_ANALYSIS cfg); [|done].
    fold prompt. destruct (input w prompt) as [answer|e]; simpl; [|done].
    fold (position_of answer).
    destruct (json_dumps_indent w (JList (ner_record <$> doc_ents))) as [dumped|e] eqn:Hd.
    + by rewrite (get_recruiter_summary_run _ _ _ _ _ Hd).
    + by rewrite (get_recruiter_summary_unwritable _ _ _ _ _ Hd).
Qed.

Lemma main_pipeline_order_witness :
  calls (trace (main (quiet_world "Data Analyst" (completion (JStr "COCOK")))
                     (default_config None)))
  = [FitzOpen "./examples/sample_cv.pdf"; SpacyLoad "./output/model-last";
     Nlp "John knows Python"; OpenWrite "./examples/sample_output.json";
     JsonDump (JList [ner_record (Build_Ent "Python" "SKILL" 11 17)]); Close;
     DataFrame (JList [entity_row (Build_Ent "Python" "SKILL" 11 17)]);
     Input prompt;
     Post (summary_request (quiet_world "Data Analyst" (completion (JStr "COCOK")))
                           (default_config None) "Data Analyst" "[...]")].
Proof.
  exact (proj1 (proj2 (main_pipeline_order
                         (quiet_world "Data Analyst" (completion (JStr "COCOK")))
                         (default_config None))
                      ["John knows" ++ nl ++ "Python"]
                      (fun _ => Returned [Build_Ent "Python" "SKILL" 11 17])
                      [Build_Ent "Python" "SKILL" 11 17]
                      eq_refl eq_refl eq_refl eq_refl eq_refl)).
Defined.

(** C9 holds of the failure path only: when the response parses and
    [result["choices"][0]["message"]["content"]] is [null], the function
    returns [None], which is not a string. *)
Theorem get_recruiter_summary_null_content :
  outcome (get_recruiter_summary (quiet_world "Data Analyst" (completion JNone))
                                 (default_config None) "Data Analyst" (JList []))
  = Returned JNone.
Proof. reflexivity. Qed.

End InferenceTheorems.

Module TrainingFacts.
Import Py PyValue Script TrainingSpec.
Local Open Scope string_scope.

Lemma print_items_run (w : NerTraining.world) (items : list (string * json)) :
  NerTraining.print_items w items
  = ((fun kv => NerTraining.Print (NerTraining.item_line w kv)) <$> items, Returned tt).
Proof.
  induction items as [|kv items IH]; [done|]. simpl. by rewrite IH.
Qed.

(** One run of train_sweep once the W&B run is open: an exception of the
    training is caught and printed, an exit of the training passes the
    [except] clause; the [finally] clause and the end of the [with] block
    run in every case. *)
Lemma train_sweep_run (w : NerTraining.world) (project : string) :
  NerTraining.wandb_init w NerTraining.PROJECT_NAME = Returned project ->
  let overrides := sweep_overrides w project in
  let training := NerTraining.spacy_train w NerTraining.CONFIG_PATH NerTraining.OUTPUT_DIR
                                          overrides 0 in
  NerTraining.train_sweep w
  = ([NerTraining.Print "🚀 Starting W&B sweep run...";
      NerTraining.WandbInit NerTraining.PROJECT_NAME;
      NerTraining.Print "--- Active Sweep Parameters ---"]
     ++ ((fun kv => NerTraining.Print (NerTraining.item_line w kv)) <$> overrides)
     ++ [NerTraining.SpacyTrain NerTraining.CONFIG_PATH NerTraining.OUTPUT_DIR overrides 0]
     ++ match training with
        | Raised (Exception e) =>
            [NerTraining.Print ("❌ Training failed: " ++ NerTraining.exc_str w e)]
        | _ => []
        end
     ++ [NerTraining.Print "--- Run finished ---"; NerTraining.RunExit],
     match training with
     | Raised (SystemExit code) => Raised (SystemExit code)
     | _ => Returned tt
     end)%list.
Proof.
  intros Hinit overrides training. unfold NerTraining.train_sweep.
  rewrite Hinit. simpl. fold (sweep_overrides w project). fold overrides. fold training.
  rewrite print_items_run. simpl.
  destruct training as [[]|[e|code]]; simpl; by rewrite <- !app_assoc.
Qed.

End TrainingFacts.

Module FailureReporting.
Import Py PyValue Script TrainingSpec Samples TrainingFacts.
Local Open Scope string_scope.




End FailureReporting.

Module ConvertTheorems.
Import Py DataPreprocessing ConvertSpec Samples ConvertFacts.

(** The accumulated [cleaned_data] does not influence what is appended
    to it. *)
Lemma trim_records_acc (data acc : list example) :
  trim_records data acc = (out <- trim_records data [] ;; Returned (acc ++ out)).
Proof.
  revert acc. induction data as [|[text entities] data IH]; intros acc; simpl.
  { by rewrite app_nil_r. }
  destruct (trim_entities text entities []) as [valid|]; simpl; [|done].
  rewrite (IH (acc ++ _)), (IH [Annotated text valid]).
  destruct (trim_records data []) as [out|]; simpl; [|done].
  by rewrite <- app_assoc.
Qed.

Lemma trim_records_app (data1 data2 acc : list example) :
  trim_records (data1 ++ data2) acc
  = (out1 <- trim_records data1 acc ;; trim_records data2 out1).
Proof.
  revert acc. induction data1 as [|[text entities] data1 IH]; intros acc; simpl; [done|].
  destruct (trim_entities text entities []) as [valid|]; simpl; [|done]. apply IH.
Qed.


Example overlap_filter_sample :
  passed (scan_entities no_spans (codepoints "John knows Python") []
            [Entity 0 4 "NAME"; Entity 3 10 "VERB"; Entity 5 5 "EMPTY";
             Entity 4 10 "VERB"; Entity 11 17 "SKILL"; Entity 0 17 "ALL"])
  = [Entity 0 4 "NAME"; Entity 5 5 "EMPTY"; Entity 4 10 "VERB"; Entity 11 17 "SKILL"].
Proof. reflexivity. Qed.

(** C10: trim_entity_spans and the overlap filter are functions of their
    input: equal inputs give equal outputs.  Nothing else enters the result:
    what trim_entity_spans appends does not depend on the records cleaned
    before, a batch is trimmed as its parts are, and the filter's decisions
    depend neither on what spaCy answers nor on the records seen before,
    each record being filtered from empty [entity_indices]. *)
Theorem preprocessing_deterministic {Span1 Span2 : Type}
        (cs1 : list N -> Z -> Z -> string -> option Span1)
        (cs2 : list N -> Z -> Z -> string -> option Span2)
        (data1 data2 part1 part2 acc : list example) :
  data1 = data2 ->
  data2 = part1 ++ part2 ->
  trim_entity_spans data1 = trim_entity_spans data2
  /\ trim_records data1 acc = (out <- trim_entity_spans data2 ;; Returned (acc ++ out))
  /\ trim_entity_spans data1
     = (out1 <- trim_entity_spans part1 ;;
        out2 <- trim_entity_spans part2 ;; Returned (out1 ++ out2))
  /\ span_requests (convert_to_spacy cs1 data1) = span_requests (convert_to_spacy cs2 data2)
  /\ span_requests (convert_to_spacy cs1 data1)
     = map (fun r => passed (scan_entities cs2 (ex_text r) [] (ex_entities r))) data2.
Proof.
  intros -> ->. split_and!.
  - done.
  - apply trim_records_acc.
  - unfold trim_entity_spans. rewrite trim_records_app.
    destruct (trim_records part1 []) as [out1|]; simpl; [|done].
    apply trim_records_acc.
  - unfold convert_to_spacy. rewrite !span_requests_foldl. simpl.
    apply map_ext. intros r. apply scan_entities_independent.
  - unfold convert_to_spacy. rewrite span_requests_foldl. simpl.
    apply map_ext. intros r. apply scan_entities_independent.
Qed.

Lemma preprocessing_deterministic_witness :
  trim_entity_spans sample = trim_entity_spans sample
  /\ span_requests (convert_to_spacy no_spans sample)
     = span_requests (convert_to_spacy all_spans sample).
Proof.
  destruct (preprocessing_deterministic no_spans all_spans
              sample sample
              (take 1 sample) (drop 1 sample) []
              eq_refl eq_refl) as (Htrim & _ & _ & Hfilter & _).
  by split.
Defined.

End ConvertTheorems.

Module TrimExtras.
Import Py DataPreprocessing TrimSpec PreprocessingSpec Samples TrimFacts.

Lemma raised_is_index_error {A} (r : result exn A) (e : exn) :
  r = Raised e -> r = Raised IndexError.
Proof. by destruct e. Qed.

(** An entity that overruns its text makes its own two loops raise. *)
Lemma overrun_raises (text : list N) (e : entity) :
  overruns text e ->
  trim_start text (ent_start e) = Raised IndexError
  \/ exists s', trim_start text (ent_start e) = Returned s'
                /\ trim_end text s' (ent_end e) = Raised IndexError.
Proof.
  destruct e as [start end_ label]. unfold overruns. simpl.
  intros [Hneg|[Hpos Hlen]].
  - left. rewrite trim_start_unfold.
    assert (0 <= len text) by (unfold len; lia).
    destruct (Z.ltb_spec start (len text)); [|lia].
    unfold getitem. destruct (Z.ltb_spec start 0); [|lia].
    by destruct (Z.leb_spec 0 (start + len text)); [lia|].
  - right. destruct (trim_start_spec text start) as (s' & Hs & (Hle & _) & Hlen'); [lia|].
    exists s'. split; [done|].
    assert (s' < end_) as Hlt.
    { destruct (Z.le_gt_cases start (len text)) as [Hin|Hout]; [lia|].
      rewrite trim_start_unfold in Hs.
      destruct (Z.ltb_spec start (len text)); [lia|]. injection Hs as <-. lia. }
    rewrite trim_end_unfold. destruct (Z.ltb_spec s' end_); [|lia].
    unfold getitem. destruct (Z.ltb_spec (end_ - 1) 0); [lia|].
    destruct (Z.leb_spec 0 (end_ - 1)); [|lia].
    by destruct (Z.ltb_spec (end_ - 1) (len text)); [lia|].
Qed.

Lemma trim_entities_overrun (text : list N) (entities acc : list entity) (e : entity) :
  e ∈ entities -> overruns text e ->
  trim_entities text entities acc = Raised IndexError.
Proof.
  intros Hin Hover. revert acc.
  induction entities as [|e0 entities IH]; intros acc; [by apply elem_of_nil in Hin|].
  apply elem_of_cons in Hin as [<-|Hin].
  - destruct (overrun_raises text e Hover) as [Hs|(s' & Hs & He)];
      destruct e as [start end_ label]; simpl in *; rewrite Hs; [done|].
    simpl. by rewrite He.
  - destruct e0 as [start end_ label]. simpl.
    destruct (trim_start text start) as [s'|err] eqn:Hs; simpl;
      [|by eapply raised_is_index_error].
    destruct (trim_end text s' end_) as [e'|err] eqn:He; simpl;
      [|by eapply raised_is_index_error].
    destruct (s' <? e'); by apply IH.
Qed.

Lemma trim_records_overrun (data acc : list example) (r : example) (e : entity) :
  r ∈ data -> e ∈ ex_entities r -> overruns (ex_text r) e ->
  trim_records data acc = Raised IndexError.
Proof.
  intros Hr He Hover. revert acc.
  induction data as [|r0 data IH]; intros acc; [by apply elem_of_nil in Hr|].
  apply elem_of_cons in Hr as [<-|Hr].
  - destruct r as [text entities]. simpl in *.
    by rewrite (trim_entities_overrun text entities [] e He Hover).
  - destruct r0 as [text entities]. simpl.
    destruct (trim_entities text entities []) as [valid|err] eqn:Hv; simpl;
      [|by eapply raised_is_index_error].
    by apply IH.
Qed.

(** X1: one entity with [start < -len(text)], or with
    [0 <= start < end] and [end > len(text)], anywhere in the data, makes
    trim_entity_spans raise IndexError: nothing is returned for the other
    records either. *)
Theorem trim_entity_spans_overrun_raises (data : list example) (r : example) (e : entity) :
  r ∈ data -> e ∈ ex_entities r -> overruns (ex_text r) e ->
  trim_entity_spans data = Raised IndexError.
Proof. apply trim_records_overrun. Qed.

Lemma trim_entity_spans_overrun_raises_witness :
  trim_entity_spans
    (sample ++ [Annotated (codepoints "ab") [Entity 0 1 "NAME"; Entity 1 3 "SKILL"]])
  = Raised IndexError.
Proof.
  apply (trim_entity_spans_overrun_raises
           _ (Annotated (codepoints "ab") [Entity 0 1 "NAME"; Entity 1 3 "SKILL"])
           (Entity 1 3 "SKILL")).
  - apply elem_of_app. right. apply list_elem_of_singleton. reflexivity.
  - simpl. apply elem_of_cons. right. apply list_elem_of_singleton. reflexivity.
  - right. by vm_compute.
Defined.

(** X2: on offsets in range, trim_entity_spans returns its input unchanged
    exactly when every span is already clean: inside the text, not empty,
    with a first and a last character that are not whitespace. *)
Theorem trim_entity_spans_fixed_points (data : list example) :
  data_in_range data ->
  trim_entity_spans data = Returned data <-> all_clean data.
Proof.
  intros Hin. split.
  - intros Hfix. destruct (trim_records_spec data [] Hin) as (out & Hr & Hout).
    unfold trim_entity_spans in Hfix. rewrite Hfix in Hr. injection Hr as ->.
    by apply TrimTheorems.trimmed_examples_clean in Hout.
  - intros Hclean. unfold trim_entity_spans. by rewrite trim_records_clean.
Qed.

Lemma trim_entity_spans_fixed_points_witness :
  trim_entity_spans [Annotated (codepoints "a b ") [Entity 0 3 "NAME"]]
  = Returned [Annotated (codepoints "a b ") [Entity 0 3 "NAME"]]
  <-> all_clean [Annotated (codepoints "a b ") [Entity 0 3 "NAME"]].
Proof.
  apply trim_entity_spans_fixed_points.
  repeat first [apply Forall_nil_2 | apply Forall_cons_2 | split]; by vm_compute.
Defined.

Lemma trimmed_entity_kept (text : list N) (e : entity) (o : option entity) :
  offsets_in_range text e -> trimmed_entity text e o ->
  is_Some o <-> has_visible text e.
Proof.
  intros [Hs He] (s' & e' & (Hle & Hws & Hn) & (Hle' & Hmin & Hws' & Hn') & ->).
  destruct (Z.ltb_spec s' e') as [Hlt|Hge]; split.
  - intros _. exists s'. split; [lia|]. apply Hn. lia.
  - by intros _.
  - by intros [? ?].
  - intros (i & Hi & Hvis). exfalso.
    destruct (Z.lt_ge_cases i s') as [Hbefore|Hafter].
    + apply (ws_nonws_excl text i); [apply Hws; lia|done].
    + apply (ws_nonws_excl text i); [apply Hws'; lia|done].
Qed.

(** X3: on offsets in range, every record comes out with its text and
    with the outcomes of its entities, one by one and in order, where the
    outcome of an entity is its trimmed span, and the entity is kept exactly
    when its span holds a character that is not whitespace; a span of
    whitespace only, or an empty one, is dropped. *)
Theorem trim_entity_spans_keeps_visible (data : list example) :
  data_in_range data ->
  exists out,
    trim_entity_spans data = Returned out
    /\ Forall2 (fun r r' =>
                  ex_text r' = ex_text r
                  /\ exists os,
                      ex_entities r' = omap id os
                      /\ Forall2 (fun e o => trimmed_entity (ex_text r) e o
                                             /\ (is_Some o <-> has_visible (ex_text r) e))
                                 (ex_entities r) os)
               data out.
Proof.
  intros Hin. destruct (trim_records_spec data [] Hin) as (out & Hr & Hout).
  exists out. split; [done|]. clear Hr.
  induction Hout as [|r r' data out (Htext & (os & Hos & Hents) & _) _ IH]; [done|].
  apply Forall_cons_1 in Hin as [Hr Hin]. constructor; [|by apply IH].
  split; [done|]. exists os. split; [done|]. clear Hents.
  induction Hos as [|e o entities os Ho _ IHos]; [done|].
  apply Forall_cons_1 in Hr as [He Hr]. constructor; [|by apply IHos].
  split; [done|]. by apply trimmed_entity_kept.
Qed.

Lemma trim_entity_spans_keeps_visible_witness :
  exists out,
    trim_entity_spans sample_in_range = Returned out
    /\ Forall2 (fun r r' =>
                  ex_text r' = ex_text r
                  /\ exists os,
                      ex_entities r' = omap id os
                      /\ Forall2 (fun e o => trimmed_entity (ex_text r) e o
                                             /\ (is_Some o <-> has_visible (ex_text r) e))
                                 (ex_entities r) os)
               sample_in_range out.
Proof.
  apply trim_entity_spans_keeps_visible.
  repeat first [apply Forall_nil_2 | apply Forall_cons_2 | split]; by vm_compute.
Defined.

End TrimExtras.

Module ConvertExtras.
Import Py DataPreprocessing TrimSpec ConvertSpec PreprocessingSpec Samples TrimFacts ConvertFacts.

Lemma pairwise_disjoint_snoc_inv (l : list entity) (e : entity) :
  pairwise_disjoint (l ++ [e]) ->
  pairwise_disjoint l /\ forall e0, e0 ∈ l -> ~ shares_index e0 e.
Proof.
  intros Hd. split.
  - intros i j e1 e2 Hij H1 H2. apply (Hd i j e1 e2 Hij).
    + apply lookup_app_l_Some, H1.
    + apply lookup_app_l_Some, H2.
  - intros e0 [i Hi]%list_elem_of_lookup_1.
    apply (Hd i (length l) e0 e).
    + by apply lookup_lt_Some in Hi.
    + by apply lookup_app_l_Some.
    + by apply list_lookup_middle.
Qed.

Section Filter.
Context {Span : Type}.
Variable char_span : list N -> Z -> Z -> string -> option Span.

Lemma scan_entities_disjoint (text : list N) (file0 : list log_line)
      (entities : list entity) :
  pairwise_disjoint entities ->
  passed (scan_entities char_span text file0 entities) = entities.
Proof.
  induction entities as [|e pre IH] using rev_ind; [done|].
  intros [Hpre He]%pairwise_disjoint_snoc_inv.
  rewrite scan_entities_snoc, visit_passed.
  destruct (any_taken _ _ _) eqn:Hany.
  - apply any_taken_shares in Hany as (e0 & Hin & Hsh); [|apply scan_entities_inv].
    rewrite (IH Hpre) in Hin. by destruct (He e0 Hin).
  - by rewrite (IH Hpre).
Qed.

(** What one record's loop leaves in [ents] and in the error log. *)
Lemma scan_entities_outputs (text : list N) (file0 : list log_line)
      (entities : list entity) :
  let st := scan_entities char_span text file0 entities in
  ents st = omap (span_of char_span text) (passed st)
  /\ file st = file0 ++ omap (logged char_span text) (passed st).
Proof.
  induction entities as [|e pre [IHe IHf]] using rev_ind.
  { simpl. by rewrite app_nil_r. }
  simpl. rewrite scan_entities_snoc.
  set (st := scan_entities char_span text file0 pre) in *.
  destruct e as [start end_ label]. simpl.
  destruct (any_taken _ _ _); [done|].
  destruct (char_span text start end_ label) as [span|] eqn:Hspan; simpl;
    rewrite !omap_app; simpl; unfold logged, span_of; simpl; rewrite Hspan; simpl.
  - rewrite IHe, IHf. by rewrite app_nil_r.
  - rewrite IHe, IHf. by rewrite app_nil_r, app_assoc.
Qed.

Lemma scan_entities_file (text : list N) (file0 : list log_line) (entities : list entity) :
  ents (scan_entities char_span text file0 entities)
  = ents (scan_entities char_span text [] entities)
  /\ file (scan_entities char_span text file0 entities)
     = file0 ++ file (scan_entities char_span text [] entities).
Proof.
  destruct (scan_entities_outputs text file0 entities) as [He Hf].
  destruct (scan_entities_outputs text [] entities) as [He' Hf'].
  simpl in *. rewrite He, Hf, He', Hf'. simpl.
  by rewrite (proj1 (scan_entities_independent char_span char_span text text
                                               file0 [] entities)).
Qed.

Lemma convert_fold (c : corpus) (data : list example) :
  let c' := foldl (add_record char_span) c data in
  db c' = db c ++ map (fun r => (ex_text r, ents (alone char_span r))) data
  /\ error_log c' = error_log c ++ concat (map (fun r => file (alone char_span r)) data).
Proof.
  revert c. induction data as [|r data IH]; intros c; simpl.
  { by rewrite !app_nil_r. }
  destruct (IH (add_record char_span c r)) as [Hdb Hlog]. simpl in *.
  rewrite Hdb, Hlog.
  destruct (scan_entities_file (ex_text r) (error_log c) (ex_entities r)) as [He Hf].
  rewrite He, Hf. unfold alone. by rewrite <- !app_assoc.
Qed.

End Filter.

Lemma span_or_line {Span : Type}
      (char_span : list N -> Z -> Z -> string -> option Span)
      (text : list N) (l : list entity) :
  (length (omap (span_of char_span text) l) + length (omap (logged char_span text) l)
   = length l)%nat.
Proof.
  induction l as [|e l IH]; [done|].
  assert (logged char_span text e
          = match span_of char_span text e with
            | Some _ => None
            | None => Some (InvalidSpan (ent_start e) (ent_end e) (take 60 text))
            end) as Hlog by done.
  cbn [omap list_omap]. rewrite Hlog.
  destruct (span_of char_span text e); simpl; lia.
Qed.

(** X4: the overlap filter passes on every entity of a record exactly when
    the ranges of the record's entities are pairwise disjoint. *)
Theorem overlap_filter_keeps_disjoint {Span : Type}
        (char_span : list N -> Z -> Z -> string -> option Span)
        (text : list N) (file0 : list log_line) (entities : list entity) :
  passed (scan_entities char_span text file0 entities) = entities
  <-> pairwise_disjoint entities.
Proof.
  split.
  - intros <-. apply scan_entities_inv.
  - apply scan_entities_disjoint.
Qed.

(** X5: filtering twice filters once: the entities passed on, filtered
    again (with any text, log or answers of spaCy), are all passed on. *)
Theorem overlap_filter_idempotent {Span1 Span2 : Type}
        (cs1 : list N -> Z -> Z -> string -> option Span1)
        (cs2 : list N -> Z -> Z -> string -> option Span2)
        (text1 text2 : list N) (file1 file2 : list log_line) (entities : list entity) :
  passed (scan_entities cs2 text2 file2
            (passed (scan_entities cs1 text1 file1 entities)))
  = passed (scan_entities cs1 text1 file1 entities).
Proof. apply scan_entities_disjoint, scan_entities_inv. Qed.

(** X6: every entity passed to span creation ends up in exactly one place:
    [ents] holds the spans spaCy made, the error log gains one line for each
    entity spaCy made no span for, both in the order of the entities; so
    [ents] and the new log lines together count the entities passed on. *)
Theorem convert_accounts_for_entities {Span : Type}
        (char_span : list N -> Z -> Z -> string -> option Span)
        (text : list N) (file0 : list log_line) (entities : list entity) :
  let st := scan_entities char_span text file0 entities in
  ents st = omap (span_of char_span text) (passed st)
  /\ file st = file0 ++ omap (logged char_span text) (passed st)
  /\ (length (ents st) + length (file st) = length file0 + length (passed st))%nat.
Proof.
  intros st. destruct (scan_entities_outputs char_span text file0 entities) as [He Hf].
  fold st in He, Hf. split_and!; [done|done|].
  rewrite He, Hf, length_app. clear He Hf.
  pose proof (span_or_line char_span text (passed st)). lia.
Qed.

(** X7: convert_to_spacy handles its records independently: one document
    is added per record, in order, made from the record's text, and the list
    [ents] assigned to its [doc.ents] is the list that the record gives when
    it is converted on its own; the error log is the concatenation of the
    records' own logs. *)
Theorem convert_to_spacy_per_record {Span : Type}
        (char_span : list N -> Z -> Z -> string -> option Span) (data : list example) :
  db (convert_to_spacy char_span data)
  = map (fun r => (ex_text r, ents (alone char_span r))) data
  /\ error_log (convert_to_spacy char_span data)
     = concat (map (fun r => file (alone char_span r)) data).
Proof. apply (convert_fold char_span (Corpus [] [] [])). Qed.

(** X8: after trimming, spaCy is only asked for clean spans: for data with
    offsets in range, every entity that convert_to_spacy passes to
    [doc.char_span] on the trimmed data lies inside its text, is not empty
    and begins and ends with a character that is not whitespace. *)
Theorem trimmed_requests_clean {Span : Type}
        (char_span : list N -> Z -> Z -> string -> option Span)
        (data out : list example) :
  data_in_range data ->
  trim_entity_spans data = Returned out ->
  Forall2 (fun r requests => Forall (clean (ex_text r)) requests)
          out (span_requests (convert_to_spacy char_span out)).
Proof.
  intros Hin Hout. destruct (trim_records_spec data [] Hin) as (out' & Hr & Hclean).
  unfold trim_entity_spans in Hout. rewrite Hout in Hr. injection Hr as <-.
  apply TrimTheorems.trimmed_examples_clean in Hclean.
  unfold convert_to_spacy. rewrite span_requests_foldl. simpl.
  clear Hin Hout. induction Hclean as [|r out Hr _ IH]; simpl; constructor; [|done].
  apply Forall_forall. intros e He.
  apply (proj1 (Forall_forall _ _) Hr).
  eapply elem_of_sublist; [exact He|]. apply scan_entities_sublist.
Qed.

Lemma trimmed_requests_clean_witness :
  Forall2 (fun r requests => Forall (clean (ex_text r)) requests)
          [Annotated (codepoints " ab  c ") [Entity 1 3 "NAME"; Entity 5 6 "SKILL"];
           Annotated (codepoints "x") []]
          (span_requests
             (convert_to_spacy no_spans
                [Annotated (codepoints " ab  c ") [Entity 1 3 "NAME"; Entity 5 6 "SKILL"];
                 Annotated (codepoints "x") []])).
Proof.
  apply (trimmed_requests_clean no_spans sample).
  - repeat first [apply Forall_nil_2 | apply Forall_cons_2 | split]; by vm_compute.
  - reflexivity.
Defined.

End ConvertExtras.

Module PreprocessingMainFacts.
Import Py Script DataPreprocessing TrimSpec PreprocessingSpec PreprocessingMain Samples.
Local Open Scope string_scope.

Section Runs.
Context {Span : Type}.
Implicit Types (w : @world Span) (files : gmap string (list log_line)).

Lemma bind_returned {A B} (t : list (@event Span)) (a : A) (k : A -> io B) :
  Script.bind (t, Returned a) k = (t ++ trace (k a), outcome (k a))%list.
Proof. unfold Script.bind. by destruct (k a). Qed.

Lemma bind_raised {A B} (t : list (@event Span)) (h : halt failure) (k : A -> io B) :
  Script.bind ((t, Raised h) : io A) k = (t, Raised h).
Proof. done. Qed.

(** One conversion whose files can be written. *)
Lemma convert_to_spacy_io_run w (data : list example) (output_path log_path : string) :
  open_write w log_path = Returned tt ->
  let c := convert_to_spacy (char_span w) data in
  convert_to_spacy_io w data output_path log_path
  = ([SpacyBlank; OpenWrite log_path]
     ++ (Write log_path <$> error_log c)
     ++ ToDisk output_path (db c)
        :: match to_disk w output_path (db c) with
           | Returned _ => [Close log_path;
                            Print ("✅ Saved SpaCy DocBin to: " ++ output_path)]
           | Raised _ => []
           end,
     match to_disk w output_path (db c) with
     | Returned _ => Returned tt
     | Raised e => Raised (Exception e)
     end)%list.
Proof.
  intros Hopen c. unfold convert_to_spacy_io, write_lines. rewrite Hopen. fold c.
  simpl. by destruct (to_disk w output_path (db c)) as [[]|e].
Qed.


(** The script up to the conversions, when loading, trimming and
    splitting succeed. *)
Lemma main_run w (raw cleaned train test : list example) :
  directory_ready w ->
  load_json w input_path = Returned raw ->
  trim_entity_spans raw = Returned cleaned ->
  train_test_split w cleaned = Returned (train, test) ->
  exists before,
    Forall (fun ev => of_conversion ev = false) before
    /\ main w
       = Script.bind
           ((before, Returned tt) : io unit)
           (fun _ =>
              convert_to_spacy_io w train train_path default_error_log ;;;
              convert_to_spacy_io w test test_path default_error_log ;;;
              emit (Print (String (Ascii.ascii_of_nat 10)
                                  "✅ Data preprocessing completed successfully!"))).
Proof.
  intros Hdir Hload Htrim Hsplit. unfold main.
  rewrite Hload.
  destruct (path_exists w output_dir) eqn:Hex; [|rewrite (Hdir Hex)];
    cbn -[convert_to_spacy_io path_join trim_entity_spans]; rewrite Htrim;
    cbn -[convert_to_spacy_io path_join]; rewrite Hsplit;
    cbn -[convert_to_spacy_io path_join]; fold train_path test_path.
  - exists [Print "📥 Loading dataset..."; LoadJson input_path;
            Print "🧹 Cleaning entity spans..."; Print "✂️ Splitting dataset...";
            TrainTestSplit cleaned; Print "💾 Converting to SpaCy DocBin format..."].
    split; [by repeat constructor|]. by destruct (Script.bind _ _).
  - exists [Makedirs output_dir; Print "📥 Loading dataset..."; LoadJson input_path;
            Print "🧹 Cleaning entity spans..."; Print "✂️ Splitting dataset...";
            TrainTestSplit cleaned; Print "💾 Converting to SpaCy DocBin format..."].
    split; [by repeat constructor|]. by destruct (Script.bind _ _).
Qed.


Lemma not_in_setup (t : list (@event Span)) (ev : event) :
  Forall (fun ev => of_conversion ev = false) t ->
  of_conversion ev = true -> ev ∉ t.
Proof.
  intros Hq Hev Hin. apply (proj1 (Forall_forall _ _) Hq) in Hin. congruence.
Qed.

End Runs.



(** X10: when the loaded data holds an entity that overruns its text, main
    stops with the IndexError of trim_entity_spans before any file is
    opened for writing: no error log, no corpus. *)
Theorem overrun_stops_before_writing {Span : Type} (w : @world Span)
        (raw : list example) (r : example) (e : entity) :
  directory_ready w ->
  load_json w input_path = Returned raw ->
  r ∈ raw -> e ∈ ex_entities r -> overruns (ex_text r) e ->
  outcome (main w) = Raised (Exception (OffsetError IndexError))
  /\ Forall (fun ev => writes_file ev = false) (trace (main w)).
Proof.
  intros Hdir Hload Hr He Hover. unfold main. rewrite Hload.
  pose proof (TrimExtras.trim_records_overrun raw [] r e Hr He Hover) as Htrim.
  fold (trim_entity_spans raw) in Htrim.
  destruct (path_exists w output_dir) eqn:Hex; [|rewrite (Hdir Hex)];
    cbn -[trim_entity_spans]; rewrite Htrim; cbn; split; try done;
    repeat constructor.
Qed.

Lemma overrun_stops_before_writing_witness :
  outcome (main (MoreSamples.preprocessing_world
                   [Annotated (codepoints "ab") [Entity 1 3 "SKILL"]] (Returned tt)))
  = Raised (Exception (OffsetError IndexError)).
Proof.
  refine (proj1 (overrun_stops_before_writing
                   (MoreSamples.preprocessing_world
                      [Annotated (codepoints "ab") [Entity 1 3 "SKILL"]] (Returned tt))
                   [Annotated (codepoints "ab") [Entity 1 3 "SKILL"]]
                   (Annotated (codepoints "ab") [Entity 1 3 "SKILL"])
                   (Entity 1 3 "SKILL") (fun _ => eq_refl) eq_refl _ _ _)).
  - apply list_elem_of_singleton. reflexivity.
  - apply list_elem_of_singleton. reflexivity.
  - right. by vm_compute.
Defined.

(** X11: when writing the training corpus fails, main stops with that
    exception: the error log, opened just before, is never closed, and the
    test corpus is never written. *)
Theorem failed_write_leaves_log_open {Span : Type} (w : @world Span)
        (raw cleaned train test : list example) (e : failure) :
  directory_ready w ->
  load_json w input_path = Returned raw ->
  trim_entity_spans raw = Returned cleaned ->
  train_test_split w cleaned = Returned (train, test) ->
  open_write w default_error_log = Returned tt ->
  to_disk w train_path (db (convert_to_spacy (char_span w) train)) = Raised e ->
  outcome (main w) = Raised (Exception e)
  /\ OpenWrite default_error_log ∈ trace (main w)
  /\ (Close default_error_log ∉ trace (main w))
  /\ (forall docs, ToDisk test_path docs ∉ trace (main w)).
Proof.
  intros Hdir Hload Htrim Hsplit Hopen Htrain.
  destruct (main_run w raw cleaned train test Hdir Hload Htrim Hsplit)
    as (before & Hquiet & ->).
  rewrite bind_returned.
  rewrite (convert_to_spacy_io_run w train _ _ Hopen). rewrite Htrain.
  cbn -[convert_to_spacy]. split; [done|].
  split_and!.
  - apply elem_of_app. right. apply elem_of_cons. right. apply elem_of_cons. by left.
  - intros [Hin|Hin]%elem_of_app;
      [exact (not_in_setup before (Close default_error_log) Hquiet eq_refl Hin)|].
    do 2 (apply elem_of_cons in Hin as [Hin|Hin]; [discriminate Hin|]).
    apply elem_of_app in Hin as [Hin|Hin].
    + apply list_elem_of_fmap in Hin as (line & Hline & _). discriminate Hline.
    + apply list_elem_of_singleton in Hin. discriminate Hin.
  - intros docs [Hin|Hin]%elem_of_app;
      [exact (not_in_setup before (ToDisk test_path docs) Hquiet eq_refl Hin)|].
    do 2 (apply elem_of_cons in Hin as [Hin|Hin]; [discriminate Hin|]).
    apply elem_of_app in Hin as [Hin|Hin].
    + apply list_elem_of_fmap in Hin as (line & Hline & _). discriminate Hline.
    + apply list_elem_of_singleton in Hin. by injection Hin.
Qed.

Lemma failed_write_leaves_log_open_witness :
  outcome (main (MoreSamples.preprocessing_world
                   MoreSamples.two_records (Raised (LibraryFailure "disk full"))))
  = Raised (Exception (LibraryFailure "disk full")).
Proof.
  exact (proj1 (failed_write_leaves_log_open
                  (MoreSamples.preprocessing_world
                     MoreSamples.two_records (Raised (LibraryFailure "disk full")))
                  MoreSamples.two_records MoreSamples.two_records
                  (drop 1 MoreSamples.two_records) (take 1 MoreSamples.two_records)
                  (LibraryFailure "disk full")
                  (fun _ => eq_refl) eq_refl eq_refl eq_refl eq_refl eq_refl)).
Defined.

End PreprocessingMainFacts.

Module InferenceExtras.
Import Py PyValue Script Inference InferenceSpec ScriptsSpec Samples MoreSamples InferenceFacts.
Local Open Scope string_scope.

Lemma split_newline_cons (s : string) :
  exists piece pieces, split_newline s = piece :: pieces.
Proof.
  induction s as [|c rest (piece & pieces & IH)]; simpl; [by eexists _, _|].
  destruct (Ascii.eqb c _); [by eexists _, _|]. rewrite IH. by eexists _, _.
Qed.

Lemma join_space_cons (a : Ascii.ascii) (piece : string) (pieces : list string) :
  join_space (String a piece :: pieces) = String a (join_space (piece :: pieces)).
Proof. by destruct pieces. Qed.

(** Splitting at the newlines and joining with spaces replaces each
    newline by one space. *)
Lemma join_split_newline (s : string) :
  join_space (split_newline s) = spaces_for_newlines s.
Proof.
  induction s as [|c rest IH]; [done|]. simpl.
  destruct (split_newline_cons rest) as (piece & pieces & Hrest).
  rewrite Hrest in *. destruct (Ascii.eqb c _).
  - rewrite <- IH. done.
  - rewrite join_space_cons. by rewrite IH.
Qed.

Lemma spaces_for_newlines_length (s : string) :
  String.length (spaces_for_newlines s) = String.length s.
Proof. induction s as [|c rest IH]; simpl; [done|]. by rewrite IH. Qed.

Lemma spaces_for_newlines_clean (s : string) :
  has_newline (spaces_for_newlines s) = false.
Proof.
  induction s as [|c rest IH]; simpl; [done|]. rewrite IH.
  destruct (Ascii.eqb c _) eqn:Hc; [done|]. by rewrite Hc.
Qed.

(** X12: when the PDF opens, extract_text_from_pdf returns the pages' text
    with every newline replaced by one space: the result has the length of
    the raw text, so character offsets into it are offsets into the raw
    text, and it holds no newline. *)
Theorem extract_text_keeps_offsets (w : world) (pdf_path : string) (pages : list string) :
  fitz_open w pdf_path = Returned pages ->
  exists text,
    outcome (extract_text_from_pdf w pdf_path) = Returned text
    /\ text = spaces_for_newlines (raw_text pages)
    /\ String.length text = String.length (raw_text pages)
    /\ has_newline text = false.
Proof.
  intros Hopen. unfold extract_text_from_pdf. rewrite Hopen. simpl.
  fold (raw_text pages). rewrite join_split_newline.
  eexists. split_and!; [done|done| |].
  - apply spaces_for_newlines_length.
  - apply spaces_for_newlines_clean.
Qed.

Lemma extract_text_keeps_offsets_witness :
  exists text,
    outcome (extract_text_from_pdf (quiet_world "Data Analyst" JNone) "cv.pdf")
    = Returned text
    /\ text = spaces_for_newlines (raw_text ["John knows" ++ nl ++ "Python"])
    /\ String.length text = String.length (raw_text ["John knows" ++ nl ++ "Python"])
    /\ has_newline text = false.
Proof.
  exact (extract_text_keeps_offsets (quiet_world "Data Analyst" JNone) "cv.pdf"
                                    ["John knows" ++ nl ++ "Python"] eq_refl).
Defined.

(** X13: the two ways get_recruiter_summary ends.  The entities are
    serialised for the prompt before the [try] statement: when that raises,
    the exception leaves the function, which has printed nothing and sent
    no request.  Otherwise the function returns and does not exit: it sends
    exactly one request, gives back the content the response holds, and
    turns every exception of the request, the status check, the parsing and
    the four subscripts into the string
    "❌ Error during recruiter summary generation: " followed by the
    exception's text. *)
Theorem get_recruiter_summary_outcomes (w : world) (cfg : config)
        (job_position : string) (ner_results : json) :
  match json_dumps_indent w ner_results with
  | Raised e =>
      get_recruiter_summary w cfg job_position ner_results = ([], Raised (Exception e))
  | Returned dumped =>
      let req := summary_request w cfg job_position dumped in
      exists v,
        outcome (get_recruiter_summary w cfg job_position ner_results) = Returned v
        /\ calls (trace (get_recruiter_summary w cfg job_position ner_results))
           = [Post req]
        /\ (forall content, fetch_content w req = Returned content -> v = content)
        /\ (forall e, fetch_content w req = Raised e
                      -> v = JStr (error_prefix ++ exc_str w e))
  end.
Proof.
  destruct (json_dumps_indent w ner_results) as [dumped|e] eqn:Hdumps.
  - intros req. rewrite (get_recruiter_summary_run _ _ _ _ _ Hdumps). fold req. simpl.
    eexists. split_and!; [done|done| |].
    + by intros content ->.
    + by intros e ->.
  - by apply get_recruiter_summary_unwritable.
Qed.

(** X14: a response that parses but has not the expected shape is reported
    like a failure: with the entities serialised and the request answered,
    without the key "choices" the summary is the error string of KeyError,
    with an empty list of choices that of IndexError, and when the parsed
    value is a list that of TypeError. *)
Theorem malformed_response_reported (w : world) (cfg : config) (job_position : string)
        (ner_results : json) (dumped : string) (resp : response) (parsed : json) :
  json_dumps_indent w ner_results = Returned dumped ->
  requests_post w (summary_request w cfg job_position dumped) = Returned resp ->
  raise_for_status resp = Returned tt ->
  response_json resp = Returned parsed ->
  let summary := outcome (get_recruiter_summary w cfg job_position ner_results) in
  (forall items, parsed = JDict items -> dict_get "choices" items = None ->
     summary = Returned (JStr (error_prefix ++ exc_str w (KeyError (Key "choices")))))
  /\ (forall items, parsed = JDict items -> dict_get "choices" items = Some (JList []) ->
        summary = Returned (JStr (error_prefix ++ exc_str w (IndexError (JList [])))))
  /\ (forall items, parsed = JList items ->
        summary = Returned (JStr (error_prefix
                                  ++ exc_str w (TypeError (JList items) (Key "choices"))))).
Proof.
  intros Hdumps Hpost Hstatus Hjson summary. subst summary.
  rewrite (get_recruiter_summary_run _ _ _ _ _ Hdumps). unfold fetch_content, read_content.
  rewrite Hpost. simpl. rewrite Hstatus, Hjson. simpl.
  split_and!.
  - intros items -> Hnone. simpl. by rewrite Hnone.
  - intros items -> Hempty. simpl. by rewrite Hempty.
  - by intros items ->.
Qed.

Lemma malformed_response_reported_witness :
  outcome (get_recruiter_summary (quiet_world "Data Analyst" (JDict [("error", JStr "quota")]))
                                 (default_config None) "Data Analyst" (JList []))
  = Returned (JStr (error_prefix ++ "error")).
Proof.
  exact (proj1 (malformed_response_reported
                  (quiet_world "Data Analyst" (JDict [("error", JStr "quota")]))
                  (default_config None) "Data Analyst" (JList []) "[...]"
                  (Response (Returned tt) (Returned (JDict [("error", JStr "quota")])))
                  (JDict [("error", JStr "quota")]) eq_refl eq_refl eq_refl eq_refl)
               [("error", JStr "quota")] eq_refl eq_refl).
Defined.

(** X15: a failed request does not fail main: once extraction, inference
    and the write have succeeded, the output file is closed, the prompt is
    answered and the entities are serialised for the request, main returns
    normally whatever the request does, and its last two lines are the
    header of the analysis and the summary, which is the error string when
    the request failed. *)
Theorem main_survives_request_failure (w : world) (cfg : config) (pages : list string)
        (nlp : pipeline) (doc_ents : list Ent) (answer dumped : string) :
  fitz_open w (PDF_PATH cfg) = Returned pages ->
  spacy_load w (MODEL_PATH cfg) = Returned nlp ->
  nlp (document_text pages) = Returned doc_ents ->
  open_write w (OUTPUT_JSON cfg) = Returned tt ->
  json_dump w (JList (ner_record <$> doc_ents)) = Returned tt ->
  file_close w (OUTPUT_JSON cfg) = Returned tt ->
  USE_LLM_ANALYSIS cfg = true ->
  input w prompt = Returned answer ->
  json_dumps_indent w (JList (ner_record <$> doc_ents)) = Returned dumped ->
  let req := summary_request w cfg (position_of answer) dumped in
  outcome (main w cfg) = Returned tt
  /\ exists t,
      trace (main w cfg)
      = (t ++ [Print (nl ++ "--- HASIL ANALISIS KESESUAIAN KANDIDAT ---");
               Print match fetch_content w req with
                     | Returned content => printed w content
                     | Raised e => error_prefix ++ exc_str w e
                     end])%list.
Proof.
  intros Hpdf Hload Hnlp Hopen Hdump Hclose Hllm Hinput Hdumps req.
  unfold main, extract_text_from_pdf, perform_ner_inference.
  rewrite Hpdf. simpl. rewrite Hload. simpl.
  fold (document_text pages). rewrite Hnlp. simpl.
  rewrite Hopen. simpl. rewrite Hdump, Hclose. simpl. rewrite Hllm.
  fold prompt. rewrite Hinput. simpl.
  fold (position_of answer). rewrite (get_recruiter_summary_run _ _ _ _ _ Hdumps).
  fold req. simpl.
  split; [done|].
  eexists (_ :: _ :: _ :: _ :: _ :: _ :: _ :: _ :: _ :: _ :: _ :: _ :: _ :: _ :: _ :: _ :: []).
  simpl. repeat f_equal. by destruct (fetch_content w req).
Qed.

Lemma main_survives_request_failure_witness :
  outcome (main offline_pipeline (default_config None)) = Returned tt.
Proof.
  exact (proj1 (main_survives_request_failure
                  offline_pipeline (default_config None)
                  ["Ann knows SQL"] (fun _ => Returned []) [] "Data Analyst" "[]"
                  eq_refl eq_refl eq_refl eq_refl eq_refl eq_refl eq_refl eq_refl
                  eq_refl)).
Defined.

Ltac absent :=
  let Hin := fresh "Hin" in
  intros Hin;
  repeat (apply elem_of_cons in Hin as [Hin|Hin]; [discriminate Hin|]);
  by apply elem_of_nil in Hin.

Lemma position_of_nonempty (answer : string) : position_of answer <> EmptyString.
Proof. by destruct answer. Qed.

(** X16: main sends a request only at the end of a pipeline that worked:
    if a request appears in its trace then USE_LLM_ANALYSIS is true, the PDF
    opened, the model loaded and ran, the entity JSON was written and its
    file closed, the prompt was answered, the entities were serialised for
    the prompt, and the request is the one built from that serialisation
    and from a job position that is not empty. *)
Theorem request_only_after_pipeline (w : world) (cfg : config) (req : request) :
  Post req ∈ trace (main w cfg) ->
  USE_LLM_ANALYSIS cfg = true
  /\ exists pages nlp doc_ents answer dumped,
      fitz_open w (PDF_PATH cfg) = Returned pages
      /\ spacy_load w (MODEL_PATH cfg) = Returned nlp
      /\ nlp (document_text pages) = Returned doc_ents
      /\ open_write w (OUTPUT_JSON cfg) = Returned tt
      /\ json_dump w (JList (ner_record <$> doc_ents)) = Returned tt
      /\ file_close w (OUTPUT_JSON cfg) = Returned tt
      /\ input w prompt = Returned answer
      /\ position_of answer <> EmptyString
      /\ json_dumps_indent w (JList (ner_record <$> doc_ents)) = Returned dumped
      /\ req = summary_request w cfg (position_of answer) dumped.
Proof.
  unfold main, extract_text_from_pdf, perform_ner_inference.
  destruct (fitz_open w (PDF_PATH cfg)) as [pages|e] eqn:Hpdf; simpl; [|absent].
  destruct (spacy_load w (MODEL_PATH cfg)) as [nlp|e] eqn:Hload; simpl; [|absent].
  fold (document_text pages).
  destruct (nlp (document_text pages)) as [doc_ents|e] eqn:Hnlp; simpl; [|absent].
  destruct (open_write w (OUTPUT_JSON cfg)) as [[]|e] eqn:Hopen; simpl; [|absent].
  destruct (json_dump w _) as [[]|e] eqn:Hdump;
    destruct (file_close w (OUTPUT_JSON cfg)) as [[]|e'] eqn:Hclose; simpl;
    [|absent|absent|absent].
  destruct (USE_LLM_ANALYSIS cfg) eqn:Hllm; simpl; [|absent].
  fold prompt. destruct (input w prompt) as [answer|e] eqn:Hinput; simpl; [|absent].
  fold (position_of answer).
  destruct (json_dumps_indent w (JList (ner_record <$> doc_ents))) as [dumped|e] eqn:Hdumps.
  2:{ rewrite (get_recruiter_summary_unwritable _ _ _ _ _ Hdumps). simpl. absent. }
  rewrite (get_recruiter_summary_run _ _ _ _ _ Hdumps). simpl.
  intros Hin. split; [done|].
  exists pages, nlp, doc_ents, answer, dumped.
  split_and!; try done; [apply position_of_nonempty|].
  repeat (apply elem_of_cons in Hin as [Hin|Hin]; [try discriminate Hin|]).
  - by injection Hin.
  - by apply elem_of_nil in Hin.
Qed.

Lemma request_only_after_pipeline_witness :
  USE_LLM_ANALYSIS (default_config None) = true
  /\ exists pages nlp doc_ents answer dumped,
      fitz_open offline_pipeline (PDF_PATH (default_config None)) = Returned pages
      /\ spacy_load offline_pipeline (MODEL_PATH (default_config None)) = Returned nlp
      /\ nlp (document_text pages) = Returned doc_ents
      /\ open_write offline_pipeline (OUTPUT_JSON (default_config None)) = Returned tt
      /\ json_dump offline_pipeline (JList (ner_record <$> doc_ents)) = Returned tt
      /\ file_close offline_pipeline (OUTPUT_JSON (default_config None)) = Returned tt
      /\ input offline_pipeline prompt = Returned answer
      /\ position_of answer <> EmptyString
      /\ json_dumps_indent offline_pipeline (JList (ner_record <$> doc_ents))
         = Returned dumped
      /\ summary_request offline_pipeline (default_config None) "Data Analyst" "[]"
         = summary_request offline_pipeline (default_config None) (position_of answer)
                           dumped.
Proof.
  apply (request_only_after_pipeline offline_pipeline (default_config None)).
  vm_compute. do 15 apply list_elem_of_further. apply list_elem_of_here.
Defined.

(** X17: a failed dump stops main after the file is closed: with the PDF
    read, the entities found and the output file opened, an exception of
    [json.dump] passes through main, the file is closed all the same, and
    neither the prompt nor the request follows; the exception that leaves
    main is that of [json.dump], or that of closing the file when closing
    fails too. *)
Theorem failed_dump_closes_file (w : world) (cfg : config) (pages : list string)
        (nlp : pipeline) (doc_ents : list Ent) (e : exn) :
  fitz_open w (PDF_PATH cfg) = Returned pages ->
  spacy_load w (MODEL_PATH cfg) = Returned nlp ->
  nlp (document_text pages) = Returned doc_ents ->
  open_write w (OUTPUT_JSON cfg) = Returned tt ->
  json_dump w (JList (ner_record <$> doc_ents)) = Raised e ->
  outcome (main w cfg)
  = Raised (Exception match file_close w (OUTPUT_JSON cfg) with
                      | Returned _ => e
                      | Raised e' => e'
                      end)
  /\ calls (trace (main w cfg))
     = [FitzOpen (PDF_PATH cfg); SpacyLoad (MODEL_PATH cfg); Nlp (document_text pages);
        OpenWrite (OUTPUT_JSON cfg); JsonDump (JList (ner_record <$> doc_ents)); Close].
Proof.
  intros Hpdf Hload Hnlp Hopen Hdump.
  unfold main, extract_text_from_pdf, perform_ner_inference.
  rewrite Hpdf. simpl. rewrite Hload. simpl.
  fold (document_text pages). rewrite Hnlp. simpl.
  rewrite Hopen. simpl. rewrite Hdump.
  by destruct (file_close w (OUTPUT_JSON cfg)).
Qed.

Lemma failed_dump_closes_file_witness :
  outcome (main full_disk (default_config None))
  = Raised (Exception (LibraryError "No space left on device")).
Proof.
  exact (proj1 (failed_dump_closes_file
                  full_disk (default_config None) ["Ann knows SQL"]
                  (fun _ => Returned []) [] (LibraryError "No space left on device")
                  eq_refl eq_refl eq_refl eq_refl eq_refl)).
Defined.

End InferenceExtras.

Module TrainingExtras.
Import Py PyValue Script TrainingSpec ScriptsSpec Samples MoreSamples TrainingFacts.
Local Open Scope string_scope.

(** Reading a key just set gives the value set. *)
Lemma dict_get_set (k : string) (v : json) (items : list (string * json)) :
  dict_get k (dict_set k v items) = Some v.
Proof.
  induction items as [|[k' v'] items IH]; simpl.
  - by rewrite String.eqb_refl.
  - destruct (String.eqb k k') eqn:Hk; simpl; rewrite ?Hk; [|done].
    by rewrite String.eqb_refl.
Qed.

(** Setting a key leaves the other keys as they are. *)
Lemma dict_get_set_other (k k' : string) (v : json) (items : list (string * json)) :
  k <> k' -> dict_get k' (dict_set k v items) = dict_get k' items.
Proof.
  intros Hne. induction items as [|[k0 v0] items IH]; simpl.
  - destruct (String.eqb_spec k' k); [congruence|done].
  - destruct (String.eqb_spec k k0) as [->|Hk0]; simpl.
    + destruct (String.eqb_spec k' k0); [congruence|done].
    + destruct (String.eqb_spec k' k0); [done|apply IH].
Qed.

(** X18: the overrides a sweep run hands to spaCy are the sweep's
    parameters with "training.logger.project_name" set to the project of the
    W&B run: that key always holds the run's project, also when the sweep
    supplied a value for it, and every other key holds the sweep's value. *)
Theorem sweep_overrides_carry_project (w : NerTraining.world) (project : string) :
  NerTraining.wandb_init w NerTraining.PROJECT_NAME = Returned project ->
  exists overrides before after,
    trace (NerTraining.train_sweep w)
    = (before
       ++ NerTraining.SpacyTrain NerTraining.CONFIG_PATH NerTraining.OUTPUT_DIR overrides 0
          :: after)%list
    /\ dict_get project_key overrides = Some (JStr project)
    /\ forall k, k <> project_key ->
                 dict_get k overrides = dict_get k (NerTraining.wandb_config w).
Proof.
  intros Hinit. rewrite (train_sweep_run w project Hinit).
  exists (sweep_overrides w project). eexists (_ :: _ :: _ :: _), _. split_and!.
  - simpl. reflexivity.
  - apply dict_get_set.
  - intros k Hk. apply dict_get_set_other. intros Heq. apply Hk. by rewrite <- Heq.
Qed.

Lemma sweep_overrides_carry_project_witness :
  exists overrides before after,
    trace (NerTraining.train_sweep failing_sweep)
    = (before
       ++ NerTraining.SpacyTrain NerTraining.CONFIG_PATH NerTraining.OUTPUT_DIR overrides 0
          :: after)%list
    /\ dict_get project_key overrides = Some (JStr NerTraining.PROJECT_NAME)
    /\ forall k, k <> project_key ->
                 dict_get k overrides = dict_get k (NerTraining.wandb_config failing_sweep).
Proof.
  exact (sweep_overrides_carry_project failing_sweep NerTraining.PROJECT_NAME eq_refl).
Defined.

(** X19: once the W&B run is open, a sweep run always reaches its end:
    whether training returns, raises or exits, the last things train_sweep
    does are printing "--- Run finished ---" and leaving the run's context.
    It returns normally when training returned or raised an exception; when
    training ended by [sys.exit], that exit leaves train_sweep with the
    status training chose. *)
Theorem sweep_run_finishes (w : NerTraining.world) (project : string) :
  NerTraining.wandb_init w NerTraining.PROJECT_NAME = Returned project ->
  outcome (NerTraining.train_sweep w)
  = match NerTraining.spacy_train w NerTraining.CONFIG_PATH NerTraining.OUTPUT_DIR
                                  (sweep_overrides w project) 0 with
    | Raised (SystemExit code) => Raised (SystemExit code)
    | Raised (Exception _) | Returned _ => Returned tt
    end
  /\ exists t,
      trace (NerTraining.train_sweep w)
      = (t ++ [NerTraining.Print "--- Run finished ---"; NerTraining.RunExit])%list.
Proof.
  intros Hinit. rewrite (train_sweep_run w project Hinit). split.
  - simpl. by destruct (NerTraining.spacy_train w _ _ _ _) as [[]|[e|code]].
  - simpl. eexists (_ :: _ :: _ :: _ ++ _ :: _). simpl. do 3 f_equal.
    rewrite <- app_assoc. simpl. reflexivity.
Qed.

Lemma sweep_run_finishes_witness :
  outcome (NerTraining.train_sweep rejected_sweep) = Raised (SystemExit 1).
Proof.
  exact (proj1 (sweep_run_finishes rejected_sweep NerTraining.PROJECT_NAME eq_refl)).
Defined.

(** X20: direct training lets a failure through: train_direct runs
    [python -m spacy train] with the configuration, the output directory,
    GPU 0 and, as training and development corpora, the two files the
    preprocessing script writes; when the command fails the exception leaves
    train_direct and the line "Training complete" is not printed, when it
    returns that line is the last thing printed. *)
Theorem train_direct_passes_failure (w : TrainDirect.world) :
  TrainDirect.command
  = ["python"; "-m"; "spacy"; "train"; NerTraining.CONFIG_PATH;
     "--output"; NerTraining.OUTPUT_DIR;
     "--paths.train"; PreprocessingMain.train_path;
     "--paths.dev"; PreprocessingMain.test_path; "--gpu-id"; "0"]
  /\ match TrainDirect.subprocess_run w TrainDirect.command with
     | Raised e =>
         TrainDirect.train_direct w
         = ([TrainDirect.Print "🚀 Starting direct SpaCy training...";
             TrainDirect.SubprocessRun TrainDirect.command],
            Raised (Exception e))
     | Returned _ =>
         TrainDirect.train_direct w
         = ([TrainDirect.Print "🚀 Starting direct SpaCy training...";
             TrainDirect.SubprocessRun TrainDirect.command;
             TrainDirect.Print (nl ++ "✅ Training complete. Model saved in: ./output")],
            Returned tt)
     end.
Proof.
  split; [done|]. unfold TrainDirect.train_direct.
  by destruct (TrainDirect.subprocess_run w TrainDirect.command) as [[]|e].
Qed.

Ltac gone :=
  let Hin := fresh "Hin" in
  intros Hin;
  repeat (apply elem_of_cons in Hin as [Hin|Hin]; [discriminate Hin|]);
  by apply elem_of_nil in Hin.

(** X21: a sweep configuration that lacks one of the four keys stops
    configs/spacy_train_sweep.py before training: the KeyError of the first
    missing key leaves train_with_wandb_config, which has done nothing but
    [wandb.init]: no training, no message, no [wandb.finish], no exit
    status. *)
Theorem missing_key_stops_before_training (w : SpacyTrainSweep.world) (missing : string) :
  SpacyTrainSweep.wandb_init w = Returned tt ->
  missing ∈ required_keys ->
  dict_get missing (SpacyTrainSweep.wandb_config w) = None ->
  trace (SpacyTrainSweep.train_with_wandb_config w) = [SpacyTrainSweep.WandbInit]
  /\ exists key,
      key ∈ required_keys
      /\ dict_get key (SpacyTrainSweep.wandb_config w) = None
      /\ outcome (SpacyTrainSweep.train_with_wandb_config w)
         = Raised (Exception (KeyError (Key key))).
Proof.
  intros Hinit Hin Hnone.
  unfold SpacyTrainSweep.train_with_wandb_config, SpacyTrainSweep.config_item.
  rewrite Hinit. simpl.
  destruct (dict_get "training.dropout" _) as [dropout|] eqn:Hd; simpl.
  2:{ split; [done|]. eexists. split_and!; [|exact Hd|done].
      apply list_elem_of_here. }
  destruct (dict_get "training.optimizer.learn_rate" _) as [rate|] eqn:Hl; simpl.
  2:{ split; [done|]. eexists. split_and!; [|exact Hl|done].
      apply list_elem_of_further, list_elem_of_here. }
  destruct (dict_get "training.batcher.size" _) as [size|] eqn:Hs; simpl.
  2:{ split; [done|]. eexists. split_and!; [|exact Hs|done].
      do 2 apply list_elem_of_further. apply list_elem_of_here. }
  destruct (dict_get "components.ner.model.hidden_width" _) as [width|] eqn:Hw; simpl.
  2:{ split; [done|]. eexists. split_and!; [|exact Hw|done].
      do 3 apply list_elem_of_further. apply list_elem_of_here. }
  exfalso. unfold required_keys in Hin.
  repeat (apply elem_of_cons in Hin as [->|Hin]; [congruence|]).
  by apply elem_of_nil in Hin.
Qed.

Lemma missing_key_stops_before_training_witness :
  trace (SpacyTrainSweep.train_with_wandb_config incomplete_trial)
  = [SpacyTrainSweep.WandbInit].
Proof.
  refine (proj1 (missing_key_stops_before_training
                   incomplete_trial "training.batcher.size" eq_refl _ eq_refl)).
  do 2 apply list_elem_of_further. apply list_elem_of_here.
Defined.

(** X22: configs/spacy_train_sweep.py exits with no status but 1, and only
    after a training that raised: if train_with_wandb_config ends in
    [sys.exit] then the status is 1, training was called with the four
    parameters and raised, its message was printed and [wandb.finish(1)]
    returned. *)
Theorem exit_only_after_failed_training (w : SpacyTrainSweep.world) (code : Z) :
  outcome (SpacyTrainSweep.train_with_wandb_config w) = Raised (SystemExit code) ->
  code = 1
  /\ exists overrides e,
      map fst overrides = required_keys
      /\ SpacyTrainSweep.spacy_cli_train w "config.cfg" overrides = Raised e
      /\ SpacyTrainSweep.wandb_finish w 1 = Returned tt
      /\ SpacyTrainSweep.Print ("An error occurred during training: "
                                ++ SpacyTrainSweep.exc_str w e)
         ∈ trace (SpacyTrainSweep.train_with_wandb_config w).
Proof.
  unfold SpacyTrainSweep.train_with_wandb_config, SpacyTrainSweep.config_item.
  destruct (SpacyTrainSweep.wandb_init w) as [[]|e0]; simpl; [|done].
  destruct (dict_get "training.dropout" _) as [dropout|]; simpl; [|done].
  destruct (dict_get "training.optimizer.learn_rate" _) as [rate|]; simpl; [|done].
  destruct (dict_get "training.batcher.size" _) as [size|]; simpl; [|done].
  destruct (dict_get "components.ner.model.hidden_width" _) as [width|]; simpl; [|done].
  destruct (SpacyTrainSweep.spacy_cli_train w _ _) as [[]|e] eqn:Htrain; simpl; [done|].
  destruct (SpacyTrainSweep.wandb_finish w 1) as [[]|e1] eqn:Hfin; simpl; [|done].
  intros [= <-]. split; [done|]. eexists _, e. split_and!; [|exact Htrain|done|].
  - reflexivity.
  - do 2 apply list_elem_of_further. apply list_elem_of_here.
Qed.

Lemma exit_only_after_failed_training_witness :
  (1 : Z) = 1
  /\ exists overrides e,
      map fst overrides = required_keys
      /\ SpacyTrainSweep.spacy_cli_train failing_trial "config.cfg" overrides = Raised e
      /\ SpacyTrainSweep.wandb_finish failing_trial 1 = Returned tt
      /\ SpacyTrainSweep.Print ("An error occurred during training: "
                                ++ SpacyTrainSweep.exc_str failing_trial e)
         ∈ trace (SpacyTrainSweep.train_with_wandb_config failing_trial).
Proof. exact (exit_only_after_failed_training failing_trial 1 eq_refl). Defined.

(** X23: training is only ever called with the four hyperparameters of the
    sweep: whenever train_with_wandb_config calls [spacy.cli.train], the
    configuration file is "config.cfg" and the overrides are exactly the four
    keys, in order, each with the value [wandb.config] holds for it; any
    other parameter of the sweep is left out. *)
Theorem training_overrides_from_config (w : SpacyTrainSweep.world) (config_path : string)
        (overrides : list (string * json)) :
  SpacyTrainSweep.SpacyCliTrain config_path overrides
  ∈ trace (SpacyTrainSweep.train_with_wandb_config w) ->
  config_path = "config.cfg"
  /\ map fst overrides = required_keys
  /\ Forall (fun kv => dict_get (fst kv) (SpacyTrainSweep.wandb_config w) = Some (snd kv))
            overrides.
Proof.
  unfold SpacyTrainSweep.train_with_wandb_config, SpacyTrainSweep.config_item.
  destruct (SpacyTrainSweep.wandb_init w) as [[]|e0]; simpl; [|gone].
  destruct (dict_get "training.dropout" _) as [dropout|] eqn:Hd; simpl; [|gone].
  destruct (dict_get "training.optimizer.learn_rate" _) as [rate|] eqn:Hl; simpl; [|gone].
  destruct (dict_get "training.batcher.size" _) as [size|] eqn:Hs; simpl; [|gone].
  destruct (dict_get "components.ner.model.hidden_width" _) as [width|] eqn:Hw; simpl;
    [|gone].
  assert (forall t,
             SpacyTrainSweep.SpacyCliTrain config_path overrides
             ∈ SpacyTrainSweep.WandbInit
               :: SpacyTrainSweep.SpacyCliTrain "config.cfg"
                    [("training.dropout", dropout);
                     ("training.optimizer.learn_rate", rate);
                     ("training.batcher.size", size);
                     ("components.ner.model.hidden_width", width)] :: t ->
             (forall x, x ∈ t -> x <> SpacyTrainSweep.SpacyCliTrain config_path overrides) ->
             config_path = "config.cfg"
             /\ map fst overrides = required_keys
             /\ Forall (fun kv => dict_get (fst kv) (SpacyTrainSweep.wandb_config w)
                                  = Some (snd kv)) overrides) as Hcase.
  { intros t Hin Ht.
    apply elem_of_cons in Hin as [Hin|Hin]; [discriminate Hin|].
    apply elem_of_cons in Hin as [Hin|Hin]; [|by destruct (Ht _ Hin)].
    injection Hin as -> ->. split_and!; [done|done|]. by repeat constructor. }
  destruct (SpacyTrainSweep.spacy_cli_train w _ _) as [[]|e]; simpl.
  - intros Hin. apply (Hcase [] Hin). by intros x ?%elem_of_nil.
  - destruct (SpacyTrainSweep.wandb_finish w 1) as [[]|e1]; simpl;
      intros Hin; apply (Hcase _ Hin); intros x Hx;
      repeat (apply elem_of_cons in Hx as [->|Hx]; [done|]);
      by apply elem_of_nil in Hx.
Qed.

Lemma training_overrides_from_config_witness :
  ("config.cfg" : string) = "config.cfg"
  /\ map fst (script_overrides (JFloat "0.1") (JFloat "0.001") (JInt 128) (JInt 64))
     = required_keys
  /\ Forall (fun kv => dict_get (fst kv) (SpacyTrainSweep.wandb_config failing_trial)
                       = Some (snd kv))
            (script_overrides (JFloat "0.1") (JFloat "0.001") (JInt 128) (JInt 64)).
Proof.
  apply (training_overrides_from_config failing_trial).
  vm_compute. apply list_elem_of_further, list_elem_of_here.
Defined.

End TrainingExtras.
